(** * Kalabox engine module (lib/engine.js): readiness gate and dispatcher

    A shallow embedding of [lib/engine.js].  The module keeps four
    module-level variables ([isProviderInstalled], [isProviderUp],
    [engineHasBeenInit], [engine]) and talks to two external collaborators
    through node-style callbacks: the provider ([./engine/provider.js]) and
    the backend engine module loaded by [exports.init].

    The collaborators are opaque.  They are modelled as oracles over an
    abstract world [W]: every call steps the world and yields the arguments
    the collaborator hands to its callback.  The model assumes what the
    node callback convention promises: a collaborator invokes the callback
    it was given exactly once, and an operation's callback chain runs to
    completion before the next operation is issued.

    The functions of the source are written in continuation-passing style,
    as in the source: a JavaScript [function(err) { ... }] is a Rocq
    function from the callback arguments to the rest of the computation. *)

From Stdlib Require Import String Ascii List Bool ZArith Lia.
Import ListNotations.
Open Scope string_scope.

(** ** JavaScript data *)

(** Plain (non-function) JavaScript values.  [VError m] is [new Error(m)];
    numbers are integers, so there is no [NaN]. *)
#[warnings="-register-all"]
Inductive Value : Type :=
| VUndefined
| VNull
| VBool (b : bool)
| VNumber (n : Z)
| VString (s : string)
| VError (message : string)
| VObject (props : list (string * Value)).

(** The test of [if (v)] and of [v ? a : b]. *)
Definition truthy (v : Value) : bool :=
  match v with
  | VUndefined | VNull => false
  | VBool b => b
  | VNumber n => negb (Z.eqb n 0)
  | VString EmptyString => false
  | VString (String _ _) => true
  | VError _ | VObject _ => true
  end.

Fixpoint lookup_prop (name : string) (props : list (string * Value)) : Value :=
  match props with
  | [] => VUndefined
  | (k, v) :: rest => if String.eqb k name then v else lookup_prop name rest
  end.

(** Property read [v.name]: [None] is the TypeError raised on [undefined]
    and [null]; a missing property reads as [undefined]. *)
Definition get_prop (v : Value) (name : string) : option Value :=
  match v with
  | VUndefined | VNull => None
  | VObject props => Some (lookup_prop name props)
  | VError m => Some (if String.eqb name "message" then VString m else VUndefined)
  | VBool _ | VNumber _ | VString _ => Some VUndefined
  end.

(** What the receiver of an argument sees: a plain value, or some function. *)
Inductive Passed : Type :=
| PValue (v : Value)
| PFunction.

(** The double quote character, and [Array.prototype.join]. *)
Definition dquote : string := String (ascii_of_nat 34) EmptyString.

Definition join (sep : string) (parts : list string) : string :=
  String.concat sep parts.

(** The [i]-th parameter of a function called with the arguments [args]:
    [undefined] when fewer were passed. *)
Definition arg (i : nat) (args : list Value) : Value := nth i args VUndefined.
Arguments arg : simpl never.

(** ** Calls that leave the module *)

Inductive ProviderCall : Type :=
| PGetName | PIsInstalled | PIsUp | PEngineConfig | PUp | PDown.

Inductive BackendCall : Type :=
| BGetProviderModule
| BInit (config : Value)
| BList (appName : Passed)
| BGet (cid : Value)
| BInspect (container : Value)
| BCreate (createOptions : Passed)
| BStart (cid : Value) (startOptions : Passed)
| BStop (cid : Value)
| BRemove (cid : Value)
| BBuild (image : Value)
| BPull (image : Value).

Inductive Event : Type :=
| Prov (c : ProviderCall)
| Back (c : BackendCall)
| RequireModule (path : string)
| DepsRegister (name : string) (v : Value).

Definition is_provider_call (e : Event) : bool :=
  match e with Prov _ => true | _ => false end.

Definition is_backend_call (e : Event) : bool :=
  match e with Back _ => true | _ => false end.

Definition is_provider (c : ProviderCall) (e : Event) : bool :=
  match e, c with
  | Prov PGetName, PGetName | Prov PIsInstalled, PIsInstalled
  | Prov PIsUp, PIsUp | Prov PEngineConfig, PEngineConfig
  | Prov PUp, PUp | Prov PDown, PDown => true
  | _, _ => false
  end.

Definition is_backend_init (e : Event) : bool :=
  match e with Back (BInit _) => true | _ => false end.

Definition is_backend_build (e : Event) : bool :=
  match e with Back (BBuild _) => true | _ => false end.

Definition is_backend_pull (e : Event) : bool :=
  match e with Back (BPull _) => true | _ => false end.

Definition is_require (e : Event) : bool :=
  match e with RequireModule _ => true | _ => false end.

Definition is_deps_register (e : Event) : bool :=
  match e with DepsRegister _ _ => true | _ => false end.

Definition count (p : Event -> bool) (t : list Event) : nat :=
  length (filter p t).

Inductive Exn : Type :=
| TypeError
| ModuleNotFound.

Inductive Completion (A : Type) : Type :=
| Returned (a : A)
| Thrown (e : Exn).
Arguments Returned {A} a.
Arguments Thrown {A} e.

Record GlobalConfig : Type := { globalConfig_engine : string }.

Section Engine.

(** The world outside the module (the provider's host, the daemon). *)
Context {W : Type}.

(** [./engine/provider.js].  Each asynchronous method steps the world and
    gives the argument list it calls its callback with. *)
Record Provider : Type := {
  provider_getName : W -> W * string;
  provider_isInstalled : W -> W * list Value;
  provider_isUp : W -> W * list Value;
  provider_engineConfig : W -> W * list Value;
  provider_up : W -> W * list Value;
  provider_down : W -> W * list Value
}.

(** A backend module [./engine/<name>.js]. *)
Record Backend : Type := {
  engine_getProviderModule : W -> W * Value;
  engine_init : Value -> W -> W;
  engine_list : Passed -> W -> W * list Value;
  engine_get : Value -> W -> W * Value;
  engine_inspect : Value -> W -> W * list Value;
  engine_create : Passed -> W -> W * list Value;
  engine_start : Value -> Passed -> W -> W * list Value;
  engine_stop : Value -> W -> W * list Value;
  engine_remove : Value -> W -> W * list Value;
  engine_build : Value -> W -> W * list Value;
  engine_pull : Value -> W -> W * list Value
}.

(** What [require] can load from [./engine/]: a backend module, or a
    module that is not one and has none of the methods above (such as
    [./engine/provider.js]). *)
Inductive EngineModule : Type :=
| IsBackend (B : Backend)
| NotBackend.

(** The module-level variables of [lib/engine.js]. *)
Record State : Type := mkState {
  engine : option EngineModule;
  isProviderInstalled : bool;
  isProviderUp : bool;
  engineHasBeenInit : bool
}.

(** Their values when the module is loaded (lines 15, 21, 39, 57). *)
Definition initial : State :=
  {| engine := None;
     isProviderInstalled := false;
     isProviderUp := false;
     engineHasBeenInit := false |}.

Definition set_engine (e : option EngineModule) (s : State) : State :=
  mkState e (isProviderInstalled s) (isProviderUp s) (engineHasBeenInit s).

Definition set_isProviderInstalled (b : bool) (s : State) : State :=
  mkState (engine s) b (isProviderUp s) (engineHasBeenInit s).

Definition set_isProviderUp (b : bool) (s : State) : State :=
  mkState (engine s) (isProviderInstalled s) b (engineHasBeenInit s).

Definition set_engineHasBeenInit (b : bool) (s : State) : State :=
  mkState (engine s) (isProviderInstalled s) (isProviderUp s) b.

(** ** Computations *)

(** What a computation did: the calls it made in order, the module
    variables and the world it left, and how it ended. *)
Record Run (A : Type) : Type := mkRun {
  trace : list Event;
  st : State;
  world : W;
  result : Completion A
}.
Arguments mkRun {A} trace st world result.
Arguments trace {A} r.
Arguments st {A} r.
Arguments world {A} r.
Arguments result {A} r.

Definition Proc (A : Type) : Type := State -> W -> Run A.

(** A node callback receiving its argument list. *)
Definition Callback (A : Type) : Type := list Value -> Proc A.

Definition ret {A} (a : A) : Proc A :=
  fun s w => mkRun [] s w (Returned a).

Definition throw {A} (e : Exn) : Proc A :=
  fun s w => mkRun [] s w (Thrown e).

Definition prepend {A} (evs : list Event) (r : Run A) : Run A :=
  mkRun (evs ++ trace r) (st r) (world r) (result r).

Definition bind {A B} (p : Proc A) (k : A -> Proc B) : Proc B :=
  fun s w =>
    let r := p s w in
    match result r with
    | Returned a => prepend (trace r) (k a (st r) (world r))
    | Thrown e => mkRun (trace r) (st r) (world r) (Thrown e)
    end.

(** Read, respectively assign, the module variables. *)
Definition read {A} (k : State -> Proc A) : Proc A :=
  fun s w => k s s w.

Definition assign {A} (f : State -> State) (k : Proc A) : Proc A :=
  fun s w => k (f s) w.

(** A call to a collaborator: logged, the world stepped, and the answer
    handed to the continuation. *)
Definition call {A R} (e : Event) (f : W -> W * R) (k : R -> Proc A) : Proc A :=
  fun s w => let (w', r) := f w in prepend [e] (k r s w').

(** The callback a test would pass: it records the arguments it got. *)
Definition done : Callback (list Value) := fun args => ret args.

Variable provider : Provider.

(** [require('./engine/' + name + '.js')]: the modules on disk. *)
Variable modules : string -> option EngineModule.

Definition require (path : string) : Proc EngineModule :=
  fun s w =>
    match modules path with
    | Some M => mkRun [RequireModule path] s w (Returned M)
    | None => mkRun [RequireModule path] s w (Thrown ModuleNotFound)
    end.

(** A method call on the [engine] variable: a TypeError while it is null,
    and when the module it holds does not have the method. *)
Definition with_engine {A} (k : Backend -> Proc A) : Proc A :=
  read (fun s =>
    match engine s with
    | Some (IsBackend B) => k B
    | Some NotBackend => throw TypeError
    | None => throw TypeError
    end).

(** An argument that may be a function: [list], [create] and [start]
    take an optional argument before the callback. *)
Inductive Arg (A : Type) : Type :=
| AVal (v : Value)
| AFun (f : Callback A).
Arguments AVal {A} v.
Arguments AFun {A} f.

Definition is_function {A} (a : Arg A) : bool :=
  match a with AFun _ => true | AVal _ => false end.

Definition is_undefined {A} (a : Arg A) : bool :=
  match a with AVal VUndefined => true | _ => false end.

Definition observe {A} (a : Arg A) : Passed :=
  match a with AVal v => PValue v | AFun _ => PFunction end.

(** Calling an argument: a TypeError unless it is a function. *)
Definition invoke {A} (a : Arg A) : Callback A :=
  match a with
  | AFun f => f
  | AVal _ => fun _ => throw TypeError
  end.

(** ** The source, function by function *)

(** Lines 17-19. *)
Definition makeProviderError (msg : string) : Proc Value :=
  call (Prov PGetName) (provider_getName provider) (fun name =>
    ret (VError (join " " [("Provider " ++ dquote) ++ name ++ dquote; msg]))).

(** Lines 22-37. *)
Definition verifyProviderInstalled {A} (callback : Value -> Proc A) : Proc A :=
  read (fun s =>
    if isProviderInstalled s then
      callback VNull
    else
      call (Prov PIsInstalled) (provider_isInstalled provider)
        (fun args =>
          let err := arg 0 args in
          let isInstalled := arg 1 args in
          if truthy err then
            callback err
          else if negb (truthy isInstalled) then
            bind (makeProviderError "is NOT installed!") callback
          else
            assign (set_isProviderInstalled true) (callback VNull))).

(** Lines 40-55. *)
Definition verifyProviderUp {A} (callback : Value -> Proc A) : Proc A :=
  read (fun s =>
    if isProviderUp s then
      callback VNull
    else
      call (Prov PIsUp) (provider_isUp provider)
        (fun args =>
          let err := arg 0 args in
          let isUp := arg 1 args in
          if truthy err then
            callback err
          else if negb (truthy isUp) then
            bind (makeProviderError "is NOT up!") callback
          else
            assign (set_isProviderUp true) (callback VNull))).

(** Lines 58-86. *)
Definition verifyProviderIsReady {A} (callback : Value -> Proc A) : Proc A :=
  verifyProviderInstalled (fun err =>
    if truthy err then
      callback err
    else
      verifyProviderUp (fun err =>
        if truthy err then
          callback err
        else
          read (fun s =>
            if negb (engineHasBeenInit s) then
              call (Prov PEngineConfig) (provider_engineConfig provider)
                (fun args =>
                  let err := arg 0 args in
                  let config := arg 1 args in
                  if truthy err then
                    callback err
                  else
                    with_engine (fun B =>
                      call (Back (BInit config))
                           (fun w => (engine_init B config w, tt))
                        (fun _ =>
                          assign (set_engineHasBeenInit true)
                            (callback VNull))))
            else
              callback VNull))).

(** Lines 88-90. *)
Definition exports_getProviderName : Proc string :=
  call (Prov PGetName) (provider_getName provider) ret.

(** Lines 92-94. *)
Definition exports_isUp {A} (callback : Callback A) : Proc A :=
  call (Prov PIsUp) (provider_isUp provider) callback.

(** Lines 103-108. *)
Definition exports_init (globalConfig : GlobalConfig) : Proc unit :=
  read (fun s =>
    match engine s with
    | Some _ => ret tt
    | None =>
        bind (require ("./engine/" ++ globalConfig_engine globalConfig ++ ".js"))
          (fun module =>
            assign (set_engine (Some module))
              (with_engine (fun B =>
                call (Back BGetProviderModule) (engine_getProviderModule B)
                  (fun m =>
                    call (DepsRegister "providerModule" m)
                         (fun w => (w, tt))
                      (fun _ => ret tt)))))
    end).

(** Lines 116-125.  [attempts] is not used. *)
Definition exports_up {A} (attempts : Value) (callback : Callback A) : Proc A :=
  verifyProviderInstalled (fun err =>
    if truthy err then
      callback [err]
    else
      call (Prov PUp) (provider_up provider) callback).

(** Lines 132-141.  [attempts] is not used. *)
Definition exports_down {A} (attempts : Value) (callback : Callback A) : Proc A :=
  verifyProviderInstalled (fun err =>
    if truthy err then
      callback [err]
    else
      call (Prov PDown) (provider_down provider) callback).

(** Lines 154-162.  There is no shift of the arguments here: called as
    [list(callback)], [appName] is the function and [callback] is
    [undefined]. *)
Definition exports_list {A} (appName callback : Arg A) : Proc A :=
  verifyProviderIsReady (fun err =>
    if truthy err then
      invoke callback [err]
    else
      with_engine (fun B =>
        call (Back (BList (observe appName))) (engine_list B (observe appName))
          (invoke callback))).

(** Lines 169-178. *)
Definition exports_inspect {A} (cid : Value) (callback : Callback A) : Proc A :=
  verifyProviderIsReady (fun err =>
    if truthy err then
      callback [err]
    else
      with_engine (fun B =>
        call (Back (BGet cid)) (engine_get B cid) (fun container =>
          with_engine (fun B =>
            call (Back (BInspect container)) (engine_inspect B container)
              callback)))).

(** Lines 186-194.  No shift of the arguments here either. *)
Definition exports_create {A} (createOptions callback : Arg A) : Proc A :=
  verifyProviderIsReady (fun err =>
    if truthy err then
      invoke callback [err]
    else
      with_engine (fun B =>
        call (Back (BCreate (observe createOptions)))
             (engine_create B (observe createOptions))
          (invoke callback))).

(** Lines 203-215. *)
Definition exports_start {A} (cid : Value) (startOptions callback : Arg A)
  : Proc A :=
  let '(startOptions, callback) :=
    if is_function startOptions && is_undefined callback
    then (AVal VNull, startOptions)
    else (startOptions, callback) in
  verifyProviderIsReady (fun err =>
    if truthy err then
      invoke callback [err]
    else
      with_engine (fun B =>
        call (Back (BStart cid (observe startOptions)))
             (engine_start B cid (observe startOptions))
          (invoke callback))).

(** Lines 229-237. *)
Definition exports_stop {A} (cid : Value) (callback : Callback A) : Proc A :=
  verifyProviderIsReady (fun err =>
    if truthy err then
      callback [err]
    else
      with_engine (fun B =>
        call (Back (BStop cid)) (engine_stop B cid) callback)).

(** Lines 244-252. *)
Definition exports_remove {A} (cid : Value) (callback : Callback A) : Proc A :=
  verifyProviderIsReady (fun err =>
    if truthy err then
      callback [err]
    else
      with_engine (fun B =>
        call (Back (BRemove cid)) (engine_remove B cid) callback)).

(** [engine[fn](image, callback)] for the two names line 264 can produce. *)
Definition engine_method {A} (fn : string) (image : Value) (callback : Callback A)
  : Proc A :=
  with_engine (fun B =>
    if String.eqb fn "build" then
      call (Back (BBuild image)) (engine_build B image) callback
    else if String.eqb fn "pull" then
      call (Back (BPull image)) (engine_pull B image) callback
    else
      throw TypeError).

(** Lines 259-268. *)
Definition exports_build {A} (image : Value) (callback : Callback A) : Proc A :=
  verifyProviderIsReady (fun err =>
    if truthy err then
      callback [err]
    else
      match get_prop image "build" with
      | None => throw TypeError
      | Some marker =>
          let fn := if truthy marker then "build" else "pull" in
          engine_method fn image callback
      end).

(** ** Sequences of operations *)

(** What a caller may pass where [list], [create] and [start] take an
    argument: a plain value or the recording callback [done]. *)
Inductive ClientArg : Type :=
| CVal (v : Value)
| CDone.

Definition client_arg (a : ClientArg) : Arg (list Value) :=
  match a with
  | CVal v => AVal v
  | CDone => AFun done
  end.

(** One call of an exported function, every function passed being [done]. *)
Inductive Op : Type :=
| OpGetProviderName
| OpIsUp
| OpInit (globalConfig : GlobalConfig)
| OpUp (attempts : Value)
| OpDown (attempts : Value)
| OpList (appName callback : ClientArg)
| OpInspect (cid : Value)
| OpCreate (createOptions callback : ClientArg)
| OpStart (cid : Value) (startOptions callback : ClientArg)
| OpStop (cid : Value)
| OpRemove (cid : Value)
| OpBuild (image : Value).

(** The caller's view of the call: what came back, as a list of values. *)
Definition run_op (op : Op) : Proc (list Value) :=
  match op with
  | OpGetProviderName => bind exports_getProviderName (fun n => ret [VString n])
  | OpIsUp => exports_isUp done
  | OpInit globalConfig => bind (exports_init globalConfig) (fun _ => ret [])
  | OpUp attempts => exports_up attempts done
  | OpDown attempts => exports_down attempts done
  | OpList appName callback =>
      exports_list (client_arg appName) (client_arg callback)
  | OpInspect cid => exports_inspect cid done
  | OpCreate createOptions callback =>
      exports_create (client_arg createOptions) (client_arg callback)
  | OpStart cid startOptions callback =>
      exports_start cid (client_arg startOptions) (client_arg callback)
  | OpStop cid => exports_stop cid done
  | OpRemove cid => exports_remove cid done
  | OpBuild image => exports_build image done
  end.

(** [steps s s']: some sequence of exported calls, each in whatever world
    it finds, takes the module variables from [s] to [s']. *)
Inductive steps : State -> State -> Prop :=
| steps_refl (s : State) : steps s s
| steps_cons (s : State) (op : Op) (w : W) (s' : State) :
    steps (st (run_op op s w)) s' -> steps s s'.

(** The states the module can be in during the life of the process. *)
Definition reachable (s : State) : Prop := steps initial s.

(** Calls issued one after the other, each after the previous one has
    called back; an uncaught exception ends the process. *)
Fixpoint sequence {A} (ps : list (Proc A)) : Proc (list A) :=
  match ps with
  | [] => ret []
  | p :: rest => bind p (fun a => bind (sequence rest) (fun l => ret (a :: l)))
  end.

(** ** Notions used in the statements *)

(** The value [makeProviderError msg] builds when the provider is called
    [name]. *)
Definition provider_error (name msg : string) : Value :=
  VError ("Provider " ++ dquote ++ name ++ dquote ++ " " ++ msg).

(** How the callbacks of lines 26-35 and 44-53 read the arguments
    [(err, value)] a provider query calls back with. *)
Inductive Verdict : Type :=
| Failed (err : Value)
| No
| Yes.

Definition verdict (args : list Value) : Verdict :=
  let err := arg 0 args in
  let value := arg 1 args in
  if truthy err then Failed err
  else if truthy value then Yes else No.

(** The third stage of [verifyProviderIsReady] (lines 67-81), named so
    that the gate can be read stage by stage. *)
Definition initialize {A} (callback : Value -> Proc A) : Proc A :=
  read (fun s =>
    if negb (engineHasBeenInit s) then
      call (Prov PEngineConfig) (provider_engineConfig provider)
        (fun args =>
          let err := arg 0 args in
          let config := arg 1 args in
          if truthy err then
            callback err
          else
            with_engine (fun B =>
              call (Back (BInit config))
                   (fun w => (engine_init B config w, tt))
                (fun _ =>
                  assign (set_engineHasBeenInit true)
                    (callback VNull))))
    else
      callback VNull).

(** The order between the three readiness facts. *)
Definition ordered (s : State) : Prop :=
  (isProviderUp s = true -> isProviderInstalled s = true) /\
  (engineHasBeenInit s = true -> isProviderUp s = true).

(** No readiness fact goes from true to false between [s] and [s']. *)
Definition grows (s s' : State) : Prop :=
  (isProviderInstalled s = true -> isProviderInstalled s' = true) /\
  (isProviderUp s = true -> isProviderUp s' = true) /\
  (engineHasBeenInit s = true -> engineHasBeenInit s' = true).

(** [ordered], and an initialised engine is a loaded backend. *)
Definition well_formed (s : State) : Prop :=
  ordered s /\
  (engineHasBeenInit s = true -> exists B, engine s = Some (IsBackend B)).

(** A delegated backend call: the calls made, the world left, and the
    arguments the backend hands to the callback. *)
Definition Delegate : Type := Backend -> W -> list Event * (W * list Value).

(** [op] passes through at [s], [w]: when the gate hands on an error, the
    callback gets exactly that error and no backend call has been made;
    when the gate succeeds, the callback gets exactly what the delegated
    call produced; when the gate throws, so does [op]. *)
Definition passes_through {A} (op : Callback A -> Proc A) (delegate : Delegate)
    (callback : Callback A) (s : State) (w : W) : Prop :=
  let g := verifyProviderIsReady ret s w in
  match result g with
  | Returned err =>
      if truthy err then
        op callback s w = prepend (trace g) (callback [err] (st g) (world g)) /\
        count is_backend_call (trace g) = 0
      else
        exists B, engine (st g) = Some (IsBackend B) /\
          let d := delegate B (world g) in
          op callback s w =
          prepend (trace g ++ fst d) (callback (snd (snd d)) (st g) (fst (snd d)))
  | Thrown e => op callback s w = mkRun (trace g) (st g) (world g) (Thrown e)
  end.

End Engine.

Arguments Provider : clear implicits.
Arguments Backend : clear implicits.
Arguments State : clear implicits.
Arguments Run : clear implicits.
Arguments Proc : clear implicits.
Arguments Callback : clear implicits.
Arguments Arg : clear implicits.
Arguments Delegate : clear implicits.
Arguments EngineModule : clear implicits.
Arguments mkRun {W A} trace st world result.
Arguments trace {W A} r.
Arguments st {W A} r.
Arguments world {W A} r.
Arguments result {W A} r.
Arguments AVal {W A} v.
Arguments AFun {W A} f.

(** ** A concrete host, provider and backend, for examples *)

Module Demo.

(** The host: what is installed and running on it, whether it has a
    configuration to give, and how many of the next queries will fail. *)
Record Host : Type := mkHost {
  installed : bool;
  running : bool;
  configurable : bool;
  faults : nat
}.

Definition config : Value := VObject [("host", VString "1.3.3.7")].

Definition unreachable : Value := VError "host unreachable".

(** A query: it fails while faults remain, and answers otherwise. *)
Definition query (answer : Host -> list Value) (h : Host)
  : Host * list Value :=
  match faults h with
  | S n => (mkHost (installed h) (running h) (configurable h) n, [unreachable])
  | O => (h, answer h)
  end.

Definition provider : Provider Host := {|
  provider_getName := fun h => (h, "virtualbox");
  provider_isInstalled := query (fun h => [VNull; VBool (installed h)]);
  provider_isUp := query (fun h => [VNull; VBool (running h)]);
  provider_engineConfig := query (fun h =>
    if configurable h then [VNull; config]
    else [VError "config unavailable"]);
  provider_up := fun h =>
    if installed h then (mkHost true true (configurable h) (faults h), [VNull])
    else (h, [VError "cannot start"]);
  provider_down := fun h =>
    (mkHost (installed h) false (configurable h) (faults h), [VNull])
|}.

Definition docker : Backend Host := {|
  engine_getProviderModule := fun h => (h, VString "b2d");
  engine_init := fun _ h => h;
  engine_list := fun _ h => (h, [VNull; VObject [("name", VString "kb_app_web")]]);
  engine_get := fun cid h => (h, VObject [("id", cid)]);
  engine_inspect := fun c h => (h, [VNull; c]);
  engine_create := fun _ h => (h, [VError "no such image"]);
  engine_start := fun _ _ h => (h, [VNull]);
  engine_stop := fun _ h => (h, [VNull]);
  engine_remove := fun _ h => (h, [VNull]);
  engine_build := fun _ h => (h, [VNull; VString "built"]);
  engine_pull := fun _ h => (h, [VNull; VString "pulled"])
|}.

Definition modules (path : string) : option (EngineModule Host) :=
  if String.eqb path "./engine/docker.js" then Some (IsBackend docker)
  else if String.eqb path "./engine/provider.js" then Some NotBackend
  else None.

Definition globalConfig : GlobalConfig := {| globalConfig_engine := "docker" |}.

(** Hosts: nothing installed; installed but stopped; running, with or
    without a configuration to give; running but failing the next query. *)
Definition bare : Host := mkHost false false false 0.
Definition stopped : Host := mkHost true false true 0.
Definition ready : Host := mkHost true true true 0.
Definition unconfigured : Host := mkHost true true false 0.
Definition flaky : Host := mkHost true true true 1.

(** The module after [exports.init(globalConfig)]. *)
Definition loaded : State Host := set_engine (Some (IsBackend docker)) initial.

(** The module after a first successful gated call. *)
Definition warm : State Host := mkState (Some (IsBackend docker)) true true true.

(** An image to build, and one to pull. *)
Definition dockerfile_image : Value :=
  VObject [("name", VString "kalabox/syncthing"); ("build", VBool true)].

Definition registry_image : Value :=
  VObject [("name", VString "kalabox/debian")].

End Demo.

(** * Properties *)

Section Properties.

Variable W : Type.
Variable provider : Provider W.
Variable modules : string -> option (EngineModule W).

Local Open Scope list_scope.
Set Default Proof Using "Type".

Local Abbreviation State := (State W).
Local Abbreviation Run := (Run W).
Local Abbreviation Proc := (Proc W).
Local Abbreviation Callback := (Callback W).

(** ** Runs *)

Lemma prepend_nil {A} (r : Run A) : prepend [] r = r.
Proof. destruct r; reflexivity. Qed.

Lemma prepend_prepend {A} (l1 l2 : list Event) (r : Run A) :
  prepend l1 (prepend l2 r) = prepend (l1 ++ l2) r.
Proof. unfold prepend; simpl. now rewrite app_assoc. Qed.

Lemma bind_ret_l {A B} (a : A) (k : A -> Proc B) (s : State) (w : W) :
  bind (ret a) k s w = k a s w.
Proof. unfold bind, ret; simpl. apply prepend_nil. Qed.

Lemma bind_returned {A B} (p : Proc A) (k : A -> Proc B) s w a :
  result (p s w) = Returned a ->
  bind p k s w = prepend (trace (p s w)) (k a (st (p s w)) (world (p s w))).
Proof. intros H. unfold bind. now rewrite H. Qed.

Lemma string_append_assoc (a b c : string) : ((a ++ b) ++ c = a ++ b ++ c)%string.
Proof. induction a as [|ch a IH]; simpl; [reflexivity | now rewrite IH]. Qed.

Lemma count_app p (l1 l2 : list Event) :
  count p (l1 ++ l2) = count p l1 + count p l2.
Proof. unfold count. now rewrite filter_app, length_app. Qed.

(** Case analysis on whatever a goal or hypothesis branches on. *)
Ltac split_match :=
  match goal with
  | |- context [match ?x with _ => _ end] => destruct x eqn:?
  | H : context [match ?x with _ => _ end] |- _ => destruct x eqn:?
  end.

Ltac unfold_ops :=
  unfold verifyProviderIsReady, verifyProviderUp, verifyProviderInstalled,
    makeProviderError, with_engine, call, read, assign, bind, ret, throw,
    prepend, done in *.

Ltac injections :=
  repeat match goal with
         | H : Returned _ = Returned _ |- _ => injection H as H; subst
         | H : Thrown _ = Thrown _ |- _ => injection H as H; subst
         | H : (_, _) = (_, _) |- _ => injection H; clear H; intros; subst
         end.

Ltac crush :=
  try clear modules; unfold_ops; simpl in *;
  repeat (split_match; simpl in *; subst; injections; simpl in *;
          try congruence; try discriminate).

(** ** The three checks, case by case *)

Lemma makeProviderError_run msg s w :
  makeProviderError provider msg s w =
  mkRun [Prov PGetName] s (fst (provider_getName provider w))
    (Returned (provider_error (snd (provider_getName provider w)) msg)).
Proof.
  unfold makeProviderError, call, ret, prepend, provider_error, join.
  destruct (provider_getName provider w) as [w' name]; simpl.
  now rewrite !string_append_assoc.
Qed.

Section Checks.

Context {A : Type} (callback : Value -> Proc A) (s : State) (w : W).

Lemma verifyProviderInstalled_cached :
  isProviderInstalled s = true ->
  verifyProviderInstalled provider callback s w = callback VNull s w.
Proof. intros H. unfold verifyProviderInstalled, read. now rewrite H. Qed.

Lemma verifyProviderInstalled_query_error w' args :
  isProviderInstalled s = false ->
  provider_isInstalled provider w = (w', args) ->
  truthy (arg 0 args) = true ->
  verifyProviderInstalled provider callback s w =
  prepend [Prov PIsInstalled] (callback (arg 0 args) s w').
Proof.
  intros H Hq He. unfold verifyProviderInstalled, read. rewrite H.
  unfold call. rewrite Hq. cbv zeta. now rewrite He.
Qed.

Lemma verifyProviderInstalled_absent w' args :
  isProviderInstalled s = false ->
  provider_isInstalled provider w = (w', args) ->
  truthy (arg 0 args) = false -> truthy (arg 1 args) = false ->
  verifyProviderInstalled provider callback s w =
  prepend [Prov PIsInstalled; Prov PGetName]
    (callback (provider_error (snd (provider_getName provider w')) "is NOT installed!")
       s (fst (provider_getName provider w'))).
Proof.
  intros H Hq He Hv. unfold verifyProviderInstalled, read. rewrite H.
  unfold call. rewrite Hq. cbv zeta. rewrite He, Hv; simpl.
  unfold bind. rewrite makeProviderError_run; simpl.
  now rewrite prepend_prepend.
Qed.

Lemma verifyProviderInstalled_present w' args :
  isProviderInstalled s = false ->
  provider_isInstalled provider w = (w', args) ->
  truthy (arg 0 args) = false -> truthy (arg 1 args) = true ->
  verifyProviderInstalled provider callback s w =
  prepend [Prov PIsInstalled] (callback VNull (set_isProviderInstalled true s) w').
Proof.
  intros H Hq He Hv. unfold verifyProviderInstalled, read. rewrite H.
  unfold call. rewrite Hq. cbv zeta. now rewrite He, Hv.
Qed.

Lemma verifyProviderUp_cached :
  isProviderUp s = true ->
  verifyProviderUp provider callback s w = callback VNull s w.
Proof. intros H. unfold verifyProviderUp, read. now rewrite H. Qed.

Lemma verifyProviderUp_query_error w' args :
  isProviderUp s = false ->
  provider_isUp provider w = (w', args) ->
  truthy (arg 0 args) = true ->
  verifyProviderUp provider callback s w =
  prepend [Prov PIsUp] (callback (arg 0 args) s w').
Proof.
  intros H Hq He. unfold verifyProviderUp, read. rewrite H.
  unfold call. rewrite Hq. cbv zeta. now rewrite He.
Qed.

Lemma verifyProviderUp_absent w' args :
  isProviderUp s = false ->
  provider_isUp provider w = (w', args) ->
  truthy (arg 0 args) = false -> truthy (arg 1 args) = false ->
  verifyProviderUp provider callback s w =
  prepend [Prov PIsUp; Prov PGetName]
    (callback (provider_error (snd (provider_getName provider w')) "is NOT up!")
       s (fst (provider_getName provider w'))).
Proof.
  intros H Hq He Hv. unfold verifyProviderUp, read. rewrite H.
  unfold call. rewrite Hq. cbv zeta. rewrite He, Hv; simpl.
  unfold bind. rewrite makeProviderError_run; simpl.
  now rewrite prepend_prepend.
Qed.

Lemma verifyProviderUp_present w' args :
  isProviderUp s = false ->
  provider_isUp provider w = (w', args) ->
  truthy (arg 0 args) = false -> truthy (arg 1 args) = true ->
  verifyProviderUp provider callback s w =
  prepend [Prov PIsUp] (callback VNull (set_isProviderUp true s) w').
Proof.
  intros H Hq He Hv. unfold verifyProviderUp, read. rewrite H.
  unfold call. rewrite Hq. cbv zeta. now rewrite He, Hv.
Qed.

End Checks.

(** ** Callbacks are continuations

    Each check hands its verdict to the callback and does nothing after
    it: running a check with any callback is running it with [ret] and
    then the callback. *)

Lemma verifyProviderInstalled_bind {A} (k : Value -> Proc A) s w :
  verifyProviderInstalled provider k s w =
  bind (verifyProviderInstalled provider ret) k s w.
Proof.
  destruct (isProviderInstalled s) eqn:Hi.
  - unfold bind. rewrite !verifyProviderInstalled_cached by assumption.
    simpl. now rewrite prepend_nil.
  - destruct (provider_isInstalled provider w) as [w' args] eqn:Hq.
    destruct (truthy (arg 0 args)) eqn:He; [|destruct (truthy (arg 1 args)) eqn:Hv].
    + unfold bind. erewrite !verifyProviderInstalled_query_error by eassumption.
      reflexivity.
    + unfold bind. erewrite !verifyProviderInstalled_present by eassumption.
      reflexivity.
    + unfold bind. erewrite !verifyProviderInstalled_absent by eassumption.
      reflexivity.
Qed.

Lemma verifyProviderUp_bind {A} (k : Value -> Proc A) s w :
  verifyProviderUp provider k s w =
  bind (verifyProviderUp provider ret) k s w.
Proof.
  destruct (isProviderUp s) eqn:Hi.
  - unfold bind. rewrite !verifyProviderUp_cached by assumption.
    simpl. now rewrite prepend_nil.
  - destruct (provider_isUp provider w) as [w' args] eqn:Hq.
    destruct (truthy (arg 0 args)) eqn:He; [|destruct (truthy (arg 1 args)) eqn:Hv].
    + unfold bind. erewrite !verifyProviderUp_query_error by eassumption.
      reflexivity.
    + unfold bind. erewrite !verifyProviderUp_present by eassumption.
      reflexivity.
    + unfold bind. erewrite !verifyProviderUp_absent by eassumption.
      reflexivity.
Qed.

Lemma verifyProviderIsReady_stages {A} (k : Value -> Proc A) :
  verifyProviderIsReady provider k =
  verifyProviderInstalled provider (fun err =>
    if truthy err then k err
    else verifyProviderUp provider (fun err =>
      if truthy err then k err else initialize provider k)).
Proof. reflexivity. Qed.

Section Initialize.

Context {A : Type} (callback : Value -> Proc A) (s : State) (w : W).

Lemma initialize_cached :
  engineHasBeenInit s = true -> initialize provider callback s w = callback VNull s w.
Proof. intros H. unfold initialize, read. now rewrite H. Qed.

Lemma initialize_query_error w' args :
  engineHasBeenInit s = false ->
  provider_engineConfig provider w = (w', args) ->
  truthy (arg 0 args) = true ->
  initialize provider callback s w =
  prepend [Prov PEngineConfig] (callback (arg 0 args) s w').
Proof.
  intros H Hq He. unfold initialize, read. rewrite H; simpl.
  unfold call. rewrite Hq. cbv zeta. now rewrite He.
Qed.

Lemma initialize_no_backend w' args :
  engineHasBeenInit s = false ->
  provider_engineConfig provider w = (w', args) ->
  truthy (arg 0 args) = false ->
  (forall B, engine s <> Some (IsBackend B)) ->
  initialize provider callback s w = mkRun [Prov PEngineConfig] s w' (Thrown TypeError).
Proof.
  intros H Hq He Hn. unfold initialize, read. rewrite H; simpl.
  unfold call. rewrite Hq. cbv zeta. rewrite He. unfold with_engine, read.
  destruct (engine s) as [[B|]|]; [now destruct (Hn B) | reflexivity | reflexivity].
Qed.

Lemma initialize_null_engine w' args :
  engineHasBeenInit s = false ->
  provider_engineConfig provider w = (w', args) ->
  truthy (arg 0 args) = false ->
  engine s = None ->
  initialize provider callback s w = mkRun [Prov PEngineConfig] s w' (Thrown TypeError).
Proof.
  intros H Hq He Hn. apply (initialize_no_backend w' args); try assumption.
  intros B. congruence.
Qed.

Lemma initialize_configured w' args B :
  engineHasBeenInit s = false ->
  provider_engineConfig provider w = (w', args) ->
  truthy (arg 0 args) = false ->
  engine s = Some (IsBackend B) ->
  initialize provider callback s w =
  prepend [Prov PEngineConfig; Back (BInit (arg 1 args))]
    (callback VNull (set_engineHasBeenInit true s) (engine_init B (arg 1 args) w')).
Proof.
  intros H Hq He Hn. unfold initialize, read. rewrite H; simpl.
  unfold call. rewrite Hq. cbv zeta. rewrite He. unfold with_engine, read. rewrite Hn.
  unfold assign. now rewrite prepend_prepend.
Qed.

End Initialize.

Lemma initialize_bind {A} (k : Value -> Proc A) s w :
  initialize provider k s w = bind (initialize provider ret) k s w.
Proof.
  destruct (engineHasBeenInit s) eqn:Hi.
  - unfold bind. rewrite !initialize_cached by assumption.
    simpl. now rewrite prepend_nil.
  - destruct (provider_engineConfig provider w) as [w' args] eqn:Hq.
    destruct (truthy (arg 0 args)) eqn:He; [|destruct (engine s) as [[B|]|] eqn:Hn].
    + unfold bind. erewrite !initialize_query_error by eassumption.
      reflexivity.
    + unfold bind. erewrite !initialize_configured by eassumption.
      reflexivity.
    + unfold bind.
      erewrite !initialize_no_backend by (try eassumption; intros; congruence).
      reflexivity.
    + unfold bind. erewrite !initialize_null_engine by eassumption.
      reflexivity.
Qed.

Lemma bind_assoc {A B C} (p : Proc A) (f : A -> Proc B) (g : B -> Proc C) s w :
  bind (bind p f) g s w = bind p (fun a => bind (f a) g) s w.
Proof.
  unfold bind. destruct (p s w) as [t s1 w1 [a|e]]; simpl; [|reflexivity].
  destruct (f a s1 w1) as [t2 s2 w2 [b|e]]; simpl; [|reflexivity].
  unfold prepend; simpl. now rewrite app_assoc.
Qed.

Lemma bind_ext {A B} (p : Proc A) (f g : A -> Proc B) s w :
  (forall a s' w', f a s' w' = g a s' w') -> bind p f s w = bind p g s w.
Proof.
  intros H. unfold bind. destruct (result (p s w)); [now rewrite H | reflexivity].
Qed.

Lemma bind_cong {A B} (p q : Proc A) (k : A -> Proc B) s w :
  p s w = q s w -> bind p k s w = bind q k s w.
Proof. intros H. unfold bind. now rewrite H. Qed.

Lemma verifyProviderIsReady_bind {A} (k : Value -> Proc A) s w :
  verifyProviderIsReady provider k s w =
  bind (verifyProviderIsReady provider ret) k s w.
Proof.
  unfold verifyProviderIsReady. 
  rewrite (bind_cong _ _ _ _ _ (verifyProviderInstalled_bind _ s w)).
  rewrite verifyProviderInstalled_bind.
  rewrite bind_assoc. apply bind_ext. intros e1 s1 w1.
  destruct (truthy e1); [now rewrite bind_ret_l|].
  rewrite (bind_cong _ _ _ _ _ (verifyProviderUp_bind _ s1 w1)).
  rewrite verifyProviderUp_bind.
  rewrite bind_assoc. apply bind_ext. intros e2 s2 w2.
  destruct (truthy e2); [now rewrite bind_ret_l|].
  apply initialize_bind.
Qed.

(** ** What the gate leaves behind *)

Ltac flags :=
  try clear modules;
  unfold well_formed, ordered, grows, set_isProviderInstalled,
    set_isProviderUp, set_engineHasBeenInit, set_engine in *;
  simpl in *; intros; subst; simpl in *;
  intuition (subst; simpl in *; try congruence; auto).

(** The installed check leaves the other variables alone, and succeeds
    only with the installed fact set. *)
Lemma verifyProviderInstalled_outcome (s : State) (w : W) :
  let g := verifyProviderInstalled provider ret s w in
  engine (st g) = engine s /\
  isProviderUp (st g) = isProviderUp s /\
  engineHasBeenInit (st g) = engineHasBeenInit s /\
  (isProviderInstalled s = true -> isProviderInstalled (st g) = true) /\
  count is_backend_call (trace g) = 0 /\
  exists err, result g = Returned err /\
    (truthy err = false -> err = VNull /\ isProviderInstalled (st g) = true) /\
    (truthy err = true -> st g = s).
Proof.
  destruct s as [en i u n]. crush; flags; eexists; (split; [reflexivity|]); flags.
Qed.

Lemma verifyProviderUp_outcome (s : State) (w : W) :
  let g := verifyProviderUp provider ret s w in
  engine (st g) = engine s /\
  isProviderInstalled (st g) = isProviderInstalled s /\
  engineHasBeenInit (st g) = engineHasBeenInit s /\
  (isProviderUp s = true -> isProviderUp (st g) = true) /\
  count is_backend_call (trace g) = 0 /\
  exists err, result g = Returned err /\
    (truthy err = false -> err = VNull /\ isProviderUp (st g) = true) /\
    (truthy err = true -> st g = s).
Proof.
  destruct s as [en i u n]. crush; flags; eexists; (split; [reflexivity|]); flags.
Qed.

Lemma initialize_outcome (s : State) (w : W) :
  let g := initialize provider ret s w in
  engine (st g) = engine s /\
  isProviderInstalled (st g) = isProviderInstalled s /\
  isProviderUp (st g) = isProviderUp s /\
  (engineHasBeenInit s = true -> engineHasBeenInit (st g) = true) /\
  (engineHasBeenInit (st g) = true ->
   engineHasBeenInit s = false -> exists B, engine s = Some (IsBackend B)) /\
  match result g with
  | Returned err =>
      (truthy err = false -> err = VNull /\ engineHasBeenInit (st g) = true) /\
      (truthy err = true -> st g = s /\ count is_backend_call (trace g) = 0)
  | Thrown e =>
      e = TypeError /\ st g = s /\ forall B, engine s <> Some (IsBackend B)
  end.
Proof.
  destruct s as [en i u [|]]; unfold initialize; crush; flags;
    try (eexists; reflexivity); try discriminate.
Qed.

Lemma verifyProviderIsReady_outcome (s : State) (w : W) :
  let g := verifyProviderIsReady provider ret s w in
  engine (st g) = engine s /\
  grows s (st g) /\
  (well_formed s -> well_formed (st g)) /\
  match result g with
  | Returned err =>
      (truthy err = true -> count is_backend_call (trace g) = 0) /\
      (truthy err = false ->
       err = VNull /\ isProviderInstalled (st g) = true /\
       isProviderUp (st g) = true /\ engineHasBeenInit (st g) = true)
  | Thrown e => e = TypeError /\ forall B, engine s <> Some (IsBackend B)
  end.
Proof.
  intros g.
  assert (Hg : g = bind (verifyProviderInstalled provider ret) (fun err =>
            if truthy err then ret err
            else bind (verifyProviderUp provider ret) (fun err =>
              if truthy err then ret err else initialize provider ret)) s w).
  { subst g. rewrite verifyProviderIsReady_stages, verifyProviderInstalled_bind.
    apply bind_ext; intros e1 s1 w1. destruct (truthy e1); [reflexivity|].
    apply verifyProviderUp_bind. }
  clearbody g. unfold bind in Hg.
  pose proof (verifyProviderInstalled_outcome s w) as F1. cbv zeta in F1.
  destruct (verifyProviderInstalled provider ret s w) as [t1 s1 w1 r1].
  simpl in F1, Hg.
  destruct F1 as (E1 & U1 & N1 & I1 & C1 & e1 & -> & Hok1 & Herr1).
  destruct (truthy e1) eqn:T1.
  { rewrite (Herr1 eq_refl) in *. subst g; simpl. rewrite app_nil_r, T1.
    flags. }
  destruct (Hok1 eq_refl) as [-> I1']. clear Hok1 Herr1.
  pose proof (verifyProviderUp_outcome s1 w1) as F2. cbv zeta in F2.
  destruct (verifyProviderUp provider ret s1 w1) as [t2 s2 w2 r2].
  simpl in F2, Hg.
  destruct F2 as (E2 & I2 & N2 & U2 & C2 & e2 & -> & Hok2 & Herr2).
  destruct (truthy e2) eqn:T2.
  { rewrite (Herr2 eq_refl) in *. subst g; simpl.
    rewrite !app_nil_r, count_app, C1, C2, T2.
    destruct s as [en i u n], s1 as [en1 i1 u1 n1]. flags. }
  destruct (Hok2 eq_refl) as [-> U2']. clear Hok2 Herr2.
  pose proof (initialize_outcome s2 w2) as F3. cbv zeta in F3.
  destruct (initialize provider ret s2 w2) as [t3 s3 w3 r3].
  simpl in F3, Hg.
  destruct F3 as (E3 & I3 & U3 & N3 & L3 & R3).
  destruct s as [en i u n], s1 as [en1 i1 u1 n1], s2 as [en2 i2 u2 n2],
    s3 as [en3 i3 u3 n3].
  destruct r3 as [e3|x]; subst g; simpl in *.
  - destruct R3 as [Hok3 Herr3]. rewrite !count_app, C1, C2. simpl.
    destruct n; flags.
  - destruct n; flags.
Qed.

(** ** The module variables across an exported call *)

Lemma st_bind {A B} (p : Proc A) (k : A -> Proc B) s w :
  (forall a s' w', st (k a s' w') = s') ->
  st (bind p k s w) = st (p s w).
Proof.
  intros H. unfold bind. destruct (result (p s w)); simpl; [apply H | reflexivity].
Qed.

(** What follows the gate in an exported function only talks to the
    collaborators and to the callback. *)
Ltac state_kept :=
  intros;
  repeat match goal with
         | |- context [truthy ?e] => destruct (truthy e)
         | |- context [engine ?s] => destruct (engine s) as [[?|]|]
         | |- context [get_prop ?i ?n] => destruct (get_prop i n)
         | |- context [String.eqb ?a ?b] => destruct (String.eqb a b)
         | |- context [let (_, _) := ?x in _] => destruct x
         | c : ClientArg |- _ => destruct c
         | _ => progress (unfold with_engine, engine_method, read, call, done,
                           ret, throw, invoke, prepend, client_arg; simpl)
         end;
  reflexivity.

Lemma st_gated (op : Op) (s : State) (w : W) :
  match op with
  | OpList _ _ | OpInspect _ | OpCreate _ _ | OpStart _ _ _ | OpStop _
  | OpRemove _ | OpBuild _ =>
      st (run_op provider modules op s w) = st (verifyProviderIsReady provider ret s w)
  | OpUp _ | OpDown _ =>
      st (run_op provider modules op s w) = st (verifyProviderInstalled provider ret s w)
  | OpGetProviderName | OpIsUp => st (run_op provider modules op s w) = s
  | OpInit globalConfig =>
      st (run_op provider modules op s w) = s \/
      engine s = None /\
      exists M, st (run_op provider modules op s w) = set_engine (Some M) s
  end.
Proof.
  destruct op; simpl.
  - unfold exports_getProviderName, bind, call, ret, prepend; simpl.
    destruct (provider_getName provider w); reflexivity.
  - unfold exports_isUp, call, done, ret, prepend; simpl.
    destruct (provider_isUp provider w) as [w' args]; reflexivity.
  - unfold exports_init, read, bind, require.
    destruct (engine s) eqn:He; simpl; [now left|].
    destruct (modules _) as [M|]; simpl; [|now left].
    right. split; [reflexivity|]. exists M.
    unfold assign, with_engine, read, call, ret, throw, prepend; simpl.
    destruct M as [B|]; [|reflexivity].
    destruct (engine_getProviderModule B w); reflexivity.
  - unfold exports_up. rewrite verifyProviderInstalled_bind. apply st_bind. state_kept.
  - unfold exports_down. rewrite verifyProviderInstalled_bind. apply st_bind. state_kept.
  - unfold exports_list. rewrite verifyProviderIsReady_bind. apply st_bind. state_kept.
  - unfold exports_inspect. rewrite verifyProviderIsReady_bind. apply st_bind. state_kept.
  - unfold exports_create. rewrite verifyProviderIsReady_bind. apply st_bind. state_kept.
  - unfold exports_start.
    destruct (is_function (client_arg startOptions) && is_undefined (client_arg callback));
      rewrite verifyProviderIsReady_bind; apply st_bind; state_kept.
  - unfold exports_stop. rewrite verifyProviderIsReady_bind. apply st_bind. state_kept.
  - unfold exports_remove. rewrite verifyProviderIsReady_bind. apply st_bind. state_kept.
  - unfold exports_build. rewrite verifyProviderIsReady_bind. apply st_bind. state_kept.
Qed.

Lemma grows_refl (s : State) : grows s s.
Proof. flags. Qed.

Lemma grows_trans (s1 s2 s3 : State) : grows s1 s2 -> grows s2 s3 -> grows s1 s3.
Proof. flags. Qed.

Lemma run_op_step (op : Op) (s : State) (w : W) :
  let s' := st (run_op provider modules op s w) in
  grows s s' /\ (well_formed s -> well_formed s').
Proof.
  cbv zeta. pose proof (st_gated op s w) as H.
  pose proof (verifyProviderIsReady_outcome s w) as G. cbv zeta in G.
  pose proof (verifyProviderInstalled_outcome s w) as I. cbv zeta in I.
  destruct G as (G1 & G2 & G3 & _).
  destruct I as (I1 & I2 & I3 & I4 & _ & e & _ & I5 & I6).
  destruct op; try (rewrite H; auto using grows_refl).
  - destruct H as [-> | [Hn [M ->]]]; [auto using grows_refl|].
    destruct s as [en i u n]. simpl in Hn. subst en.
    split; [flags|]. intros [O E]. split; [exact O|].
    simpl in *. intros Ht. destruct (E Ht) as [B HB]. discriminate.
  - destruct (truthy e); [rewrite (I6 eq_refl); auto using grows_refl|].
    destruct (I5 eq_refl) as [_ I7].
    destruct s as [en i u n], (st (verifyProviderInstalled provider ret _ w)).
    flags.
  - destruct (truthy e); [rewrite (I6 eq_refl); auto using grows_refl|].
    destruct (I5 eq_refl) as [_ I7].
    destruct s as [en i u n], (st (verifyProviderInstalled provider ret _ w)).
    flags.
Qed.

Lemma steps_grows (s s' : State) :
  steps provider modules s s' -> grows s s' /\ (well_formed s -> well_formed s').
Proof.
  induction 1 as [s | s op w s' _ [IH1 IH2]]; [auto using grows_refl|].
  destruct (run_op_step op s w) as [H1 H2].
  split; [eapply grows_trans; eauto | auto].
Qed.

Lemma initial_well_formed : well_formed (@initial W).
Proof. flags. Qed.

Lemma reachable_well_formed (s : State) :
  reachable provider modules s -> well_formed s.
Proof. intros H. apply (steps_grows _ _ H), initial_well_formed. Qed.

(** ** Reading a provider's answer *)

Lemma verdict_no (args : list Value) :
  verdict args = No -> truthy (arg 0 args) = false /\ truthy (arg 1 args) = false.
Proof.
  unfold verdict. destruct (truthy (arg 0 args)); [discriminate|].
  destruct (truthy (arg 1 args)); [discriminate | auto].
Qed.

Lemma verdict_yes (args : list Value) :
  verdict args = Yes -> truthy (arg 0 args) = false /\ truthy (arg 1 args) = true.
Proof.
  unfold verdict. destruct (truthy (arg 0 args)); [discriminate|].
  destruct (truthy (arg 1 args)); [auto | discriminate].
Qed.

Lemma verdict_failed (args : list Value) (e : Value) :
  verdict args = Failed e -> truthy (arg 0 args) = true /\ arg 0 args = e.
Proof.
  unfold verdict. destruct (truthy (arg 0 args));
    [|destruct (truthy (arg 1 args)); discriminate].
  intros H. injection H as ->. auto.
Qed.

(** ** [up] and [down] *)

(** C1, as the code has it: once [verifyProviderInstalled] has succeeded,
    [up] (respectively [down]) hands the caller's callback to the
    provider's [up] (respectively [down]): that is the one call made after
    the check, the callback receives exactly what the provider produced,
    and no backend engine operation is called. *)
Theorem up_down_delegate_to_provider {A} (attempts : Value)
    (callback : Callback A) (s : State) (w : W) (err : Value) :
  let g := verifyProviderInstalled provider ret s w in
  result g = Returned err -> truthy err = false ->
  (let d := provider_up provider (world g) in
   exports_up provider attempts callback s w =
   prepend (trace g ++ [Prov PUp]) (callback (snd d) (st g) (fst d))) /\
  (let d := provider_down provider (world g) in
   exports_down provider attempts callback s w =
   prepend (trace g ++ [Prov PDown]) (callback (snd d) (st g) (fst d))) /\
  count is_backend_call (trace g ++ [Prov PUp]) = 0 /\
  count is_backend_call (trace g ++ [Prov PDown]) = 0.
Proof.
  intros g Hr He.
  pose proof (verifyProviderInstalled_outcome s w) as (_ & _ & _ & _ & Hc & _).
  fold g in Hc.
  repeat split.
  - unfold exports_up. rewrite verifyProviderInstalled_bind.
    rewrite (bind_returned _ _ _ _ _ Hr), He. fold g.
    unfold call. destruct (provider_up provider (world g)); simpl.
    now rewrite prepend_prepend.
  - unfold exports_down. rewrite verifyProviderInstalled_bind.
    rewrite (bind_returned _ _ _ _ _ Hr), He. fold g.
    unfold call. destruct (provider_down provider (world g)); simpl.
    now rewrite prepend_prepend.
  - now rewrite count_app, Hc.
  - now rewrite count_app, Hc.
Qed.

(** C6: while the installed fact is not cached, if the provider's
    [isInstalled] answers with no error and a false value, [up] hands its
    callback one argument, the error whose message is
    [Provider "<name>" is NOT installed!] with [<name>] the result of
    [getName()]; the only calls made are that query and [getName], so the
    provider's [up] is not called; the module variables are unchanged. *)
Theorem up_when_not_installed {A} (attempts : Value) (callback : Callback A)
    (s : State) (w : W) :
  isProviderInstalled s = false ->
  verdict (snd (provider_isInstalled provider w)) = No ->
  let w1 := fst (provider_isInstalled provider w) in
  let name := snd (provider_getName provider w1) in
  let w2 := fst (provider_getName provider w1) in
  exports_up provider attempts callback s w =
  prepend [Prov PIsInstalled; Prov PGetName]
    (callback
       [VError ("Provider " ++ dquote ++ name ++ dquote ++ " is NOT installed!")]
       s w2) /\
  count (is_provider PUp) (trace (exports_up provider attempts done s w)) = 0.
Proof.
  intros Hi Hv. cbv zeta.
  destruct (provider_isInstalled provider w) as [w1 args] eqn:Hq.
  simpl in Hv |- *. apply verdict_no in Hv as [He Ht].
  unfold exports_up.
  rewrite !(verifyProviderInstalled_absent _ _ _ _ _ Hi Hq He Ht).
  unfold provider_error; cbn [truthy]. split; reflexivity.
Qed.

(** C10: [attempts] is never read.  Whatever two values are passed for
    it, [up] (and likewise [down]) is the same computation: the same
    calls, the same arguments to the callback, the same variables left. *)
Theorem attempts_is_ignored {A} (a1 a2 : Value) (callback : Callback A)
    (s : State) (w : W) :
  exports_up provider a1 callback s w = exports_up provider a2 callback s w /\
  exports_down provider a1 callback s w = exports_down provider a2 callback s w.
Proof. split; reflexivity. Qed.

(** ** The readiness gate *)

Lemma verifyProviderIsReady_stages_bind (s : State) (w : W) :
  verifyProviderIsReady provider ret s w =
  bind (verifyProviderInstalled provider ret) (fun err =>
    if truthy err then ret err
    else bind (verifyProviderUp provider ret) (fun err =>
      if truthy err then ret err else initialize provider ret)) s w.
Proof.
  rewrite verifyProviderIsReady_stages, verifyProviderInstalled_bind.
  apply bind_ext; intros e1 s1 w1. destruct (truthy e1); [reflexivity|].
  apply verifyProviderUp_bind.
Qed.

Lemma verifyProviderInstalled_trace (s : State) (w : W) :
  ~ In (Prov PEngineConfig) (trace (verifyProviderInstalled provider ret s w)).
Proof. crush; intuition discriminate. Qed.

Lemma verifyProviderUp_trace (s : State) (w : W) :
  ~ In (Prov PEngineConfig) (trace (verifyProviderUp provider ret s w)).
Proof. crush; intuition discriminate. Qed.

Lemma initialize_trace (s : State) (w : W) :
  let t := trace (initialize provider ret s w) in
  t = [] \/ exists rest, t = Prov PEngineConfig :: rest /\ ~ In (Prov PEngineConfig) rest.
Proof.
  unfold initialize. crush; auto; right; eexists; (split; [reflexivity|]);
    simpl; intuition discriminate.
Qed.

(** C2: in a run of [verifyProviderIsReady], [engineConfig] is queried
    only after [verifyProviderInstalled] and then [verifyProviderUp], run
    in that order in this very call, have both handed on [null]: the trace
    is theirs, then the query, and neither of them makes it.  And while
    the installed fact is not cached, if the provider answers that it is
    not installed, the run makes the [isInstalled] and [getName] calls
    only, so neither [isUp] nor [engineConfig], and hands on an error. *)
Theorem verifyProviderIsReady_order (s : State) (w : W) :
  let g := verifyProviderIsReady provider ret s w in
  (In (Prov PEngineConfig) (trace g) ->
   let g1 := verifyProviderInstalled provider ret s w in
   let g2 := verifyProviderUp provider ret (st g1) (world g1) in
   result g1 = Returned VNull /\ isProviderInstalled (st g1) = true /\
   result g2 = Returned VNull /\ isProviderUp (st g2) = true /\
   ~ In (Prov PEngineConfig) (trace g1 ++ trace g2) /\
   exists rest,
     trace g = (trace g1 ++ trace g2) ++ Prov PEngineConfig :: rest /\
     ~ In (Prov PEngineConfig) rest) /\
  (isProviderInstalled s = false ->
   verdict (snd (provider_isInstalled provider w)) = No ->
   trace g = [Prov PIsInstalled; Prov PGetName] /\
   count (is_provider PIsUp) (trace g) = 0 /\
   count (is_provider PEngineConfig) (trace g) = 0 /\
   exists err, result g = Returned err /\ truthy err = true).
Proof.
  cbv zeta. split.
  - remember (verifyProviderIsReady provider ret s w) as g eqn:Hg.
    rewrite verifyProviderIsReady_stages_bind in Hg. unfold bind in Hg.
    pose proof (verifyProviderInstalled_outcome s w) as F1. cbv zeta in F1.
    pose proof (verifyProviderInstalled_trace s w) as T1.
    destruct (verifyProviderInstalled provider ret s w) as [t1 s1 w1 r1].
    simpl in F1, T1, Hg |- *.
    destruct F1 as (_ & _ & _ & _ & _ & e1 & -> & Hok1 & _).
    destruct (truthy e1) eqn:E1.
    { subst g; simpl. rewrite app_nil_r. intros H. contradiction. }
    destruct (Hok1 eq_refl) as [-> I1].
    pose proof (verifyProviderUp_outcome s1 w1) as F2. cbv zeta in F2.
    pose proof (verifyProviderUp_trace s1 w1) as T2.
    destruct (verifyProviderUp provider ret s1 w1) as [t2 s2 w2 r2].
    simpl in F2, T2, Hg |- *.
    destruct F2 as (_ & _ & _ & _ & _ & e2 & -> & Hok2 & _).
    destruct (truthy e2) eqn:E2.
    { subst g; simpl. rewrite !app_nil_r. intros H.
      apply in_app_or in H. destruct H; contradiction. }
    destruct (Hok2 eq_refl) as [-> U2]. subst g; simpl.
    pose proof (initialize_trace s2 w2) as T3. cbv zeta in T3.
    intros H. repeat (split; [auto|]).
    { intros H'. apply in_app_or in H'. destruct H'; contradiction. }
    destruct T3 as [T3 | [rest [T3 N3]]]; rewrite T3 in *.
    + rewrite !app_nil_r in H. apply in_app_or in H. destruct H; contradiction.
    + exists rest. split; [now rewrite <- app_assoc | assumption].
  - intros Hi Hv.
    destruct (provider_isInstalled provider w) as [w1 args] eqn:Hq.
    simpl in Hv. apply verdict_no in Hv as [He Ht].
    rewrite verifyProviderIsReady_stages.
    rewrite (verifyProviderInstalled_absent _ _ _ _ _ Hi Hq He Ht).
    unfold provider_error; cbn [truthy]. simpl.
    repeat split. eexists; split; reflexivity.
Qed.

(** ** Memoization *)

Lemma verifyProviderInstalled_from_cache (n : nat) (s : State) (w : W) :
  isProviderInstalled s = true ->
  sequence (repeat (verifyProviderInstalled provider ret) n) s w =
  mkRun [] s w (Returned (repeat VNull n)).
Proof.
  intros H. induction n as [|n IH]; simpl; [reflexivity|].
  unfold bind at 1. rewrite verifyProviderInstalled_cached by assumption.
  simpl. unfold bind. rewrite IH. reflexivity.
Qed.

Lemma exports_list_run {A} (appName : Value) (callback : Callback A) s w B :
  result (verifyProviderIsReady provider ret s w) = Returned VNull ->
  engine (st (verifyProviderIsReady provider ret s w)) = Some (IsBackend B) ->
  let g := verifyProviderIsReady provider ret s w in
  let d := engine_list B (PValue appName) (world g) in
  exports_list provider (AVal appName) (AFun callback) s w =
  prepend (trace g ++ [Back (BList (PValue appName))])
    (callback (snd d) (st g) (fst d)).
Proof.
  intros Hr He. cbv zeta. unfold exports_list.
  rewrite verifyProviderIsReady_bind, (bind_returned _ _ _ _ _ Hr).
  cbn [truthy]. unfold with_engine, read. rewrite He. unfold call, invoke, observe.
  destruct (engine_list B (PValue appName) _); simpl. now rewrite prepend_prepend.
Qed.

(** C3: (1) from a state where the installed fact is not yet cached, if
    the provider answers that it is installed, then [n >= 1] calls of
    [verifyProviderInstalled] in a row make one [isInstalled] query in
    all, and each hands on [null]; (2) with the fact cached a call makes no
    call, changes nothing and hands on [null]; (3) with the engine loaded
    and no fact cached, if the provider answers installed, up, and a
    configuration, a first [list] makes one [engineConfig] query and one
    backend [init] with that configuration before calling the backend's
    [list], whose arguments the callback receives; a second [list], in
    any world, makes no provider call at all. *)
Theorem checks_are_memoized :
  (forall (s : State) (w : W) (n : nat),
     1 <= n ->
     isProviderInstalled s = false ->
     verdict (snd (provider_isInstalled provider w)) = Yes ->
     let r := sequence (repeat (verifyProviderInstalled provider ret) n) s w in
     count (is_provider PIsInstalled) (trace r) = 1 /\
     trace r = [Prov PIsInstalled] /\
     result r = Returned (repeat VNull n) /\
     st r = set_isProviderInstalled true s /\
     world r = fst (provider_isInstalled provider w)) /\
  (forall (s : State) (w : W),
     isProviderInstalled s = true ->
     verifyProviderInstalled provider ret s w = mkRun [] s w (Returned VNull)) /\
  (forall (B : Backend W) (s : State) (w w' : W) (appName appName' : Value),
     engine s = Some (IsBackend B) ->
     isProviderInstalled s = false ->
     isProviderUp s = false ->
     engineHasBeenInit s = false ->
     let q1 := provider_isInstalled provider w in
     let q2 := provider_isUp provider (fst q1) in
     let q3 := provider_engineConfig provider (fst q2) in
     let cfg := arg 1 (snd q3) in
     verdict (snd q1) = Yes ->
     verdict (snd q2) = Yes ->
     truthy (arg 0 (snd q3)) = false ->
     let r1 := exports_list provider (AVal appName) (AFun done) s w in
     let r2 := exports_list provider (AVal appName') (AFun done) (st r1) w' in
     trace r1 = [Prov PIsInstalled; Prov PIsUp; Prov PEngineConfig;
                 Back (BInit cfg); Back (BList (PValue appName))] /\
     count (is_provider PEngineConfig) (trace r1) = 1 /\
     count is_backend_init (trace r1) = 1 /\
     result r1 =
       Returned (snd (engine_list B (PValue appName) (engine_init B cfg (fst q3)))) /\
     trace r2 = [Back (BList (PValue appName'))] /\
     count is_provider_call (trace r2) = 0 /\
     result r2 = Returned (snd (engine_list B (PValue appName') w'))).
Proof.
  split; [|split].
  - intros s w n Hn Hi Hv r.
    destruct n as [|n]; [lia|].
    destruct (provider_isInstalled provider w) as [w1 args] eqn:Hq.
    simpl in Hv. apply verdict_yes in Hv as [He Ht].
    assert (Hr : r = mkRun [Prov PIsInstalled] (set_isProviderInstalled true s) w1
                       (Returned (repeat VNull (S n)))).
    { subst r. simpl. unfold bind at 1.
      rewrite (verifyProviderInstalled_present _ _ _ _ _ Hi Hq He Ht).
      simpl. unfold bind.
      rewrite verifyProviderInstalled_from_cache by reflexivity. reflexivity. }
    rewrite Hr. simpl. repeat split.
  - intros s w H. now rewrite verifyProviderInstalled_cached.
  - intros B s w w' appName appName' Hen Hi Hu Hn q1 q2 q3 cfg V1 V2 V3 r1 r2.
    destruct (provider_isInstalled provider w) as [w1 a1] eqn:Q1.
    subst q1. simpl in *.
    destruct (provider_isUp provider w1) as [w2 a2] eqn:Q2.
    subst q2. simpl in *.
    destruct (provider_engineConfig provider w2) as [w3 a3] eqn:Q3.
    subst q3 cfg. simpl in *.
    apply verdict_yes in V1 as [E1 T1]. apply verdict_yes in V2 as [E2 T2].
    set (c := arg 1 a3).
    assert (G : verifyProviderIsReady provider ret s w =
                mkRun [Prov PIsInstalled; Prov PIsUp; Prov PEngineConfig; Back (BInit c)]
                  (mkState (Some (IsBackend B)) true true true) (engine_init B c w3)
                  (Returned VNull)).
    { destruct s as [en i u n]; simpl in Hen, Hi, Hu, Hn; subst.
      rewrite verifyProviderIsReady_stages.
      rewrite (verifyProviderInstalled_present _
                 (mkState (Some (IsBackend B)) false false false)
                 _ _ _ eq_refl Q1 E1 T1).
      cbn [truthy].
      rewrite (verifyProviderUp_present _
                 (mkState (Some (IsBackend B)) true false false)
                 _ _ _ eq_refl Q2 E2 T2).
      cbn [truthy].
      rewrite (initialize_configured _
                 (mkState (Some (IsBackend B)) true true false)
                 _ _ _ B eq_refl Q3 V3 eq_refl).
      reflexivity. }
    assert (R1 : r1 = mkRun [Prov PIsInstalled; Prov PIsUp; Prov PEngineConfig;
                             Back (BInit c); Back (BList (PValue appName))]
                        (mkState (Some (IsBackend B)) true true true)
                        (fst (engine_list B (PValue appName) (engine_init B c w3)))
                        (Returned (snd (engine_list B (PValue appName)
                                          (engine_init B c w3))))).
    { subst r1 r2. rewrite (exports_list_run appName done s w B);
        rewrite G; reflexivity. }
    assert (R2 : r2 = mkRun [Back (BList (PValue appName'))]
                        (mkState (Some (IsBackend B)) true true true)
                        (fst (engine_list B (PValue appName') w'))
                        (Returned (snd (engine_list B (PValue appName') w')))).
    { subst r2. rewrite R1. simpl.
      unfold exports_list. rewrite verifyProviderIsReady_stages.
      rewrite verifyProviderInstalled_cached by reflexivity. cbn [truthy].
      rewrite verifyProviderUp_cached by reflexivity. cbn [truthy].
      rewrite initialize_cached by reflexivity. cbn [truthy].
      unfold with_engine, read, call, invoke, observe, done, ret, prepend; simpl.
      destruct (engine_list B (PValue appName') w'); reflexivity. }
    rewrite R2, R1. simpl. repeat split.
Qed.

(** ** The readiness facts over the life of the process *)

(** C4: let [s] be any state the module variables can reach from their
    initial values by calls of the exported functions, and [s'] any state
    reached from [s] by further calls.  Then no readiness fact that holds
    in [s] is false in [s'], and in [s'] (as in [s]) the up fact implies
    the installed fact and the initialised fact implies the up fact. *)
Theorem readiness_facts_invariant (s s' : State) :
  reachable provider modules s ->
  steps provider modules s s' ->
  ((isProviderInstalled s = true -> isProviderInstalled s' = true) /\
   (isProviderUp s = true -> isProviderUp s' = true) /\
   (engineHasBeenInit s = true -> engineHasBeenInit s' = true)) /\
  ((isProviderUp s = true -> isProviderInstalled s = true) /\
   (engineHasBeenInit s = true -> isProviderUp s = true)) /\
  ((isProviderUp s' = true -> isProviderInstalled s' = true) /\
   (engineHasBeenInit s' = true -> isProviderUp s' = true)).
Proof.
  intros Hs Hss'.
  pose proof (reachable_well_formed s Hs) as [Ho _].
  destruct (steps_grows s s' Hss') as [Hg Hw].
  destruct (Hw (reachable_well_formed s Hs)) as [Ho' _].
  exact (conj Hg (conj Ho Ho')).
Qed.

(** ** Gated operations *)

(** An exported function that runs the gate and then either hands the
    gate's error to the callback or makes its delegated call. *)
Lemma gate_then {A} (op : Callback A -> Proc A) (delegate : Delegate W)
    (callback : Callback A) (K : Value -> Proc A) (s : State) (w : W) :
  well_formed s ->
  op callback s w = verifyProviderIsReady provider K s w ->
  (forall err s' w',
     K err s' w' =
     if truthy err then callback [err] s' w'
     else match engine s' with
          | Some (IsBackend B) =>
              let d := delegate B w' in
              prepend (fst d) (callback (snd (snd d)) s' (fst (snd d)))
          | _ => mkRun [] s' w' (Thrown TypeError)
          end) ->
  passes_through provider op delegate callback s w.
Proof.
  intros Hw Hop HK. unfold passes_through. cbv beta zeta.
  rewrite Hop, (verifyProviderIsReady_bind K). unfold bind.
  pose proof (verifyProviderIsReady_outcome s w) as F. cbv zeta in F.
  destruct (verifyProviderIsReady provider ret s w) as [t s1 w1 r].
  simpl in F |- *. destruct F as (E & _ & W1 & R).
  destruct r as [err|e]; [|reflexivity].
  destruct R as [Rerr Rok]. rewrite HK.
  destruct (truthy err) eqn:T.
  - split; [reflexivity | auto].
  - destruct (Rok eq_refl) as (_ & _ & _ & N).
    destruct (W1 Hw) as [_ Hen]. destruct (Hen N) as [B HB]. rewrite HB.
    exists B. split; [reflexivity|]. simpl. now rewrite prepend_prepend.
Qed.

Ltac delegated :=
  let err := fresh "err" in
  let s' := fresh "s'" in
  let w' := fresh "w'" in
  let B := fresh "B" in
  let He := fresh "He" in
  intros err s' w'; cbv beta; destruct (truthy err); [reflexivity|];
  unfold engine_method; unfold with_engine, read, call, invoke, throw; simpl;
  destruct (engine s') as [[B|]|] eqn:He; [|reflexivity|reflexivity];
  repeat (match goal with
          | |- context [let (_, _) := ?x in _] => destruct x
          end; simpl; try rewrite He);
  unfold prepend; simpl; reflexivity.

(** X13: in any reachable state, the gated operations called with a
    function in the place of their [callback] parameter pass through:
    [list(appName, callback)], [inspect], [create(createOptions, callback)],
    [start] (with options and a callback, or with a callback alone),
    [stop], [remove] and [build] (on an image that is not [null] or
    [undefined]).  A gate error reaches the callback as it is, with no
    backend call made; after a successful gate the callback receives
    exactly the arguments the delegated backend call produced. *)
Theorem gated_operations_pass_through {A} (callback : Callback A)
    (s : State) (w : W) :
  reachable provider modules s ->
  (forall appName,
     passes_through provider
       (fun cb => exports_list provider (AVal appName) (AFun cb))
       (fun B w => ([Back (BList (PValue appName))],
                    engine_list B (PValue appName) w))
       callback s w) /\
  (forall cid,
     passes_through provider (exports_inspect provider cid)
       (fun B w =>
          let c := engine_get B cid w in
          ([Back (BGet cid); Back (BInspect (snd c))],
           engine_inspect B (snd c) (fst c)))
       callback s w) /\
  (forall createOptions,
     passes_through provider
       (fun cb => exports_create provider (AVal createOptions) (AFun cb))
       (fun B w => ([Back (BCreate (PValue createOptions))],
                    engine_create B (PValue createOptions) w))
       callback s w) /\
  (forall cid startOptions,
     passes_through provider
       (fun cb => exports_start provider cid (AVal startOptions) (AFun cb))
       (fun B w => ([Back (BStart cid (PValue startOptions))],
                    engine_start B cid (PValue startOptions) w))
       callback s w) /\
  (forall cid,
     passes_through provider
       (fun cb => exports_start provider cid (AFun cb) (AVal VUndefined))
       (fun B w => ([Back (BStart cid (PValue VNull))],
                    engine_start B cid (PValue VNull) w))
       callback s w) /\
  (forall cid,
     passes_through provider (exports_stop provider cid)
       (fun B w => ([Back (BStop cid)], engine_stop B cid w))
       callback s w) /\
  (forall cid,
     passes_through provider (exports_remove provider cid)
       (fun B w => ([Back (BRemove cid)], engine_remove B cid w))
       callback s w) /\
  (forall image marker,
     get_prop image "build" = Some marker ->
     passes_through provider (exports_build provider image)
       (fun B w =>
          if truthy marker then ([Back (BBuild image)], engine_build B image w)
          else ([Back (BPull image)], engine_pull B image w))
       callback s w).
Proof.
  intros Hs. apply reachable_well_formed in Hs.
  repeat split; intros.
  - eapply gate_then; [assumption | reflexivity | delegated].
  - eapply gate_then; [assumption | reflexivity | delegated].
  - eapply gate_then; [assumption | reflexivity | delegated].
  - eapply gate_then; [assumption | reflexivity | delegated].
  - eapply gate_then; [assumption | reflexivity | delegated].
  - eapply gate_then; [assumption | reflexivity | delegated].
  - eapply gate_then; [assumption | reflexivity | delegated].
  - eapply gate_then; [assumption | reflexivity |].
    cbv beta. rewrite H. destruct (truthy marker); delegated.
Qed.

(** ** [build] *)

Lemma Forall_trace_bind {A B} (P : Event -> Prop) (p : Proc A) (k : A -> Proc B) s w :
  Forall P (trace (p s w)) ->
  (forall a s' w', Forall P (trace (k a s' w'))) ->
  Forall P (trace (bind p k s w)).
Proof.
  intros Hp Hk. unfold bind. destruct (result (p s w)); simpl; [|assumption].
  apply Forall_app; auto.
Qed.

(** The gate calls the provider and the backend's [init], nothing else. *)
Lemma verifyProviderIsReady_calls (s : State) (w : W) :
  Forall (fun e => is_provider_call e = true \/ is_backend_init e = true)
    (trace (verifyProviderIsReady provider ret s w)).
Proof.
  assert (L : forall l, forallb (fun e => is_provider_call e || is_backend_init e) l = true ->
             Forall (fun e => is_provider_call e = true \/ is_backend_init e = true) l).
  { intros l H. apply Forall_forall. intros e He.
    apply orb_true_iff. revert e He. now apply forallb_forall. }
  rewrite verifyProviderIsReady_stages_bind.
  apply Forall_trace_bind; [apply L; crush; reflexivity|].
  intros e1 s1 w1. destruct (truthy e1); [constructor|].
  apply Forall_trace_bind; [apply L; crush; reflexivity|].
  intros e2 s2 w2. destruct (truthy e2); [constructor|].
  apply L. unfold initialize. crush; reflexivity.
Qed.

Lemma count_none (q : Event -> bool) (P : Event -> Prop) (t : list Event) :
  (forall e, P e -> q e = false) -> Forall P t -> count q t = 0.
Proof.
  intros H. induction 1 as [|e t He _ IH]; [reflexivity|].
  unfold count in *. simpl. now rewrite (H e He).
Qed.

Lemma verifyProviderIsReady_no_build (s : State) (w : W) :
  count is_backend_build (trace (verifyProviderIsReady provider ret s w)) = 0 /\
  count is_backend_pull (trace (verifyProviderIsReady provider ret s w)) = 0.
Proof.
  split; eapply count_none; try apply verifyProviderIsReady_calls;
    intros [[]|[]| |] [H|H]; simpl in *; congruence.
Qed.

(** C7: in a reachable state, for an image [image] whose [build]
    property reads as [marker], once the gate has succeeded [build] calls
    the backend's [build] on [image] when [marker] is truthy and the
    backend's [pull] on [image] otherwise, and hands the callback what
    that call produced.  Which of the two is called (once, the other not
    at all) is a function of the truth value of [marker] alone. *)
Theorem build_branches_on_marker {A} (image marker : Value)
    (callback : Callback A) (s : State) (w : W) (err : Value) :
  reachable provider modules s ->
  get_prop image "build" = Some marker ->
  let g := verifyProviderIsReady provider ret s w in
  result g = Returned err -> truthy err = false ->
  (exists B, engine (st g) = Some (IsBackend B) /\
     exports_build provider image callback s w =
     if truthy marker then
       let d := engine_build B image (world g) in
       prepend (trace g ++ [Back (BBuild image)]) (callback (snd d) (st g) (fst d))
     else
       let d := engine_pull B image (world g) in
       prepend (trace g ++ [Back (BPull image)]) (callback (snd d) (st g) (fst d))) /\
  let r := exports_build provider image done s w in
  count is_backend_build (trace r) = (if truthy marker then 1 else 0) /\
  count is_backend_pull (trace r) = (if truthy marker then 0 else 1).
Proof.
  intros Hs Hm g Hr He.
  apply reachable_well_formed in Hs.
  assert (P : forall B (cb : Callback B),
             passes_through provider (exports_build provider image)
               (fun B w =>
                  if truthy marker then ([Back (BBuild image)], engine_build B image w)
                  else ([Back (BPull image)], engine_pull B image w))
               cb s w).
  { intros B cb. eapply gate_then; [assumption | reflexivity |].
    cbv beta. rewrite Hm. destruct (truthy marker); delegated. }
  pose proof (verifyProviderIsReady_no_build s w) as [Nb Np].
  split.
  - specialize (P A callback). unfold passes_through in P. cbv zeta in P.
    fold g in P. rewrite Hr, He in P. destruct P as [B [HB P]].
    exists B. split; [assumption|]. rewrite P. now destruct (truthy marker).
  - specialize (P _ done). unfold passes_through in P. cbv zeta in P.
    fold g in P, Nb, Np. rewrite Hr, He in P. destruct P as [B [HB P]].
    cbv zeta. rewrite P.
    destruct (truthy marker); simpl; rewrite !count_app, ?Nb, ?Np; split; reflexivity.
Qed.

(** ** The backend handle *)

(** The gate up to the third stage, when the first two succeed. *)
Lemma verifyProviderIsReady_after_checks {A} (K : Value -> Proc A) s w :
  let g1 := verifyProviderInstalled provider ret s w in
  let g2 := verifyProviderUp provider ret (st g1) (world g1) in
  result g1 = Returned VNull -> result g2 = Returned VNull ->
  verifyProviderIsReady provider K s w =
  prepend (trace g1 ++ trace g2) (initialize provider K (st g2) (world g2)).
Proof.
  intros g1 g2 H1 H2.
  rewrite verifyProviderIsReady_stages, verifyProviderInstalled_bind.
  rewrite (bind_returned _ _ _ _ _ H1). cbn [truthy]. fold g1.
  rewrite verifyProviderUp_bind, (bind_returned _ _ _ _ _ H2). cbn [truthy].
  fold g2. now rewrite prepend_prepend.
Qed.

(** C9, as the code has it: let the installed and up checks of a gated
    operation pass while the engine has not been initialised.  If the
    provider's [engineConfig] query answers without an error and [engine]
    is still [null], every gated operation ends in a TypeError thrown at
    [engine.init(config)], right after the [engineConfig] query: its
    callback is not called and [engineHasBeenInit] stays false; if
    [engine] holds a backend, that step calls the backend's [init] with the
    configuration, sets [engineHasBeenInit] and goes on to the callback.
    If the [engineConfig] query answers with an error, that error goes to
    the callback, whatever [engine] holds, and [engine.init] is not
    reached.  And [exports.init], called while [engine] is [null] with
    the name of a backend module, leaves [engine] holding that module. *)
Theorem null_engine_throws_at_init {A} (s : State) (w : W) :
  let g1 := verifyProviderInstalled provider ret s w in
  let g2 := verifyProviderUp provider ret (st g1) (world g1) in
  let q := provider_engineConfig provider (world g2) in
  let config := arg 1 (snd q) in
  result g1 = Returned VNull ->
  result g2 = Returned VNull ->
  engineHasBeenInit s = false ->
  (truthy (arg 0 (snd q)) = false ->
   (engine s = None ->
    let crash : Run A :=
      mkRun (trace g1 ++ trace g2 ++ [Prov PEngineConfig]) (st g2) (fst q)
        (Thrown TypeError) in
    engineHasBeenInit (st g2) = false /\
    (forall K, verifyProviderIsReady provider K s w = crash) /\
    (forall appName callback, exports_list provider appName callback s w = crash) /\
    (forall cid callback, exports_inspect provider cid callback s w = crash) /\
    (forall createOptions callback,
       exports_create provider createOptions callback s w = crash) /\
    (forall cid startOptions callback,
       exports_start provider cid startOptions callback s w = crash) /\
    (forall cid callback, exports_stop provider cid callback s w = crash) /\
    (forall cid callback, exports_remove provider cid callback s w = crash) /\
    (forall image callback, exports_build provider image callback s w = crash)) /\
   (forall B, engine s = Some (IsBackend B) ->
    forall K : Value -> Proc A,
      verifyProviderIsReady provider K s w =
      prepend (trace g1 ++ trace g2 ++ [Prov PEngineConfig; Back (BInit config)])
        (K VNull (set_engineHasBeenInit true (st g2))
           (engine_init B config (fst q))))) /\
  (truthy (arg 0 (snd q)) = true ->
   let err := arg 0 (snd q) in
   let t := trace g1 ++ trace g2 ++ [Prov PEngineConfig] in
   engineHasBeenInit (st g2) = false /\
   count is_backend_call t = 0 /\
   (forall K : Value -> Proc A,
      verifyProviderIsReady provider K s w = prepend t (K err (st g2) (fst q))) /\
   (forall appName (callback : Callback A),
      exports_list provider (AVal appName) (AFun callback) s w =
      prepend t (callback [err] (st g2) (fst q))) /\
   (forall cid (callback : Callback A),
      exports_inspect provider cid callback s w =
      prepend t (callback [err] (st g2) (fst q))) /\
   (forall createOptions (callback : Callback A),
      exports_create provider (AVal createOptions) (AFun callback) s w =
      prepend t (callback [err] (st g2) (fst q))) /\
   (forall cid startOptions (callback : Callback A),
      exports_start provider cid (AVal startOptions) (AFun callback) s w =
      prepend t (callback [err] (st g2) (fst q))) /\
   (forall cid (callback : Callback A),
      exports_stop provider cid callback s w =
      prepend t (callback [err] (st g2) (fst q))) /\
   (forall cid (callback : Callback A),
      exports_remove provider cid callback s w =
      prepend t (callback [err] (st g2) (fst q))) /\
   (forall image (callback : Callback A),
      exports_build provider image callback s w =
      prepend t (callback [err] (st g2) (fst q)))) /\
  (forall globalConfig B (s0 : State) (w0 : W),
     engine s0 = None ->
     modules ("./engine/" ++ globalConfig_engine globalConfig ++ ".js") =
       Some (IsBackend B) ->
     let r := exports_init modules globalConfig s0 w0 in
     result r = Returned tt /\ st r = set_engine (Some (IsBackend B)) s0).
Proof.
  intros g1 g2 q config H1 H2 Hn.
  pose proof (verifyProviderInstalled_outcome s w) as (E1 & _ & N1 & _ & C1 & _).
  pose proof (verifyProviderUp_outcome (st g1) (world g1)) as (E2 & _ & N2 & _ & C2 & _).
  fold g1 in E1, N1, C1. fold g2 in E2, N2, C2.
  assert (Hn2 : engineHasBeenInit (st g2) = false) by congruence.
  assert (He2 : engine (st g2) = engine s) by congruence.
  assert (Q : provider_engineConfig provider (world g2) = (fst q, snd q)).
  { subst q. now destruct (provider_engineConfig provider (world g2)). }
  split; [|split].
  - intros Hq. split.
    + intros Hnull crash.
      assert (G : forall K, verifyProviderIsReady provider K s w = crash).
      { intros K. rewrite (verifyProviderIsReady_after_checks K s w H1 H2).
        fold g1 g2.
        rewrite (initialize_null_engine K _ _ _ _ Hn2 Q Hq) by congruence.
        subst crash. unfold prepend; simpl. now rewrite <- app_assoc. }
      repeat split; intros; try apply G; try assumption.
      unfold exports_start. destruct (is_function _ && is_undefined _); apply G.
    + intros B HB K. rewrite (verifyProviderIsReady_after_checks K s w H1 H2).
      fold g1 g2.
      rewrite (initialize_configured K _ _ _ _ B Hn2 Q Hq) by congruence.
      rewrite prepend_prepend. now rewrite <- app_assoc.
  - intros Hq err t.
    assert (G : forall B (K : Value -> Proc B),
              verifyProviderIsReady provider K s w = prepend t (K err (st g2) (fst q))).
    { intros B K. rewrite (verifyProviderIsReady_after_checks K s w H1 H2).
      fold g1 g2.
      rewrite (initialize_query_error K _ _ _ _ Hn2 Q Hq).
      rewrite prepend_prepend. subst t. now rewrite <- app_assoc. }
    split; [assumption|]. split.
    { subst t. now rewrite !count_app, C1, C2. }
    split; [apply G|].
    repeat split; intros.
    + unfold exports_list. rewrite G. subst err. now rewrite Hq.
    + unfold exports_inspect. rewrite G. subst err. now rewrite Hq.
    + unfold exports_create. rewrite G. subst err. now rewrite Hq.
    + cbv [exports_start is_function is_undefined andb]. rewrite G. subst err.
      now rewrite Hq.
    + unfold exports_stop. rewrite G. subst err. now rewrite Hq.
    + unfold exports_remove. rewrite G. subst err. now rewrite Hq.
    + unfold exports_build. rewrite G. subst err. now rewrite Hq.
  - intros globalConfig B s0 w0 Hnull Hm r. subst r.
    unfold exports_init, read, bind, require. rewrite Hnull, Hm. simpl.
    unfold assign, with_engine, read, call, ret, prepend; simpl.
    destruct (engine_getProviderModule B w0). simpl. split; reflexivity.
Qed.

(** ** Query errors *)

Lemma verifyProviderInstalled_uncached_trace (s : State) (w : W) :
  isProviderInstalled s = false ->
  trace (verifyProviderInstalled provider ret s w) = [Prov PIsInstalled] \/
  trace (verifyProviderInstalled provider ret s w) = [Prov PIsInstalled; Prov PGetName].
Proof. intros H. crush; auto. Qed.

Lemma verifyProviderUp_uncached_trace (s : State) (w : W) :
  isProviderUp s = false ->
  trace (verifyProviderUp provider ret s w) = [Prov PIsUp] \/
  trace (verifyProviderUp provider ret s w) = [Prov PIsUp; Prov PGetName].
Proof. intros H. crush; auto. Qed.

Lemma initialize_uncached_trace (s : State) (w : W) :
  engineHasBeenInit s = false ->
  let t := trace (initialize provider ret s w) in
  t = [Prov PEngineConfig] \/
  exists config, t = [Prov PEngineConfig; Back (BInit config)].
Proof.
  intros H. unfold initialize, read. rewrite H. cbn [negb].
  crush; try (left; reflexivity); right; eexists; reflexivity.
Qed.

Lemma initialize_trace_queries (s : State) (w : W) :
  let t := trace (initialize provider ret s w) in
  count (is_provider PIsInstalled) t = 0 /\ count (is_provider PIsUp) t = 0.
Proof. unfold initialize. crush; auto. Qed.

(** Which query a run of the gate starts with, given what is cached. *)
Lemma verifyProviderIsReady_first_query (s : State) (w : W) :
  let t := trace (verifyProviderIsReady provider ret s w) in
  (isProviderInstalled s = false -> exists rest, t = Prov PIsInstalled :: rest) /\
  (isProviderInstalled s = true -> isProviderUp s = false ->
   (exists rest, t = Prov PIsUp :: rest) /\
   count (is_provider PIsInstalled) t = 0) /\
  (isProviderInstalled s = true -> isProviderUp s = true ->
   engineHasBeenInit s = false ->
   (exists rest, t = Prov PEngineConfig :: rest) /\
   count (is_provider PIsInstalled) t = 0 /\ count (is_provider PIsUp) t = 0).
Proof.
  cbv zeta. split; [|split].
  - intros Hi. rewrite verifyProviderIsReady_stages_bind. unfold bind.
    pose proof (verifyProviderInstalled_outcome s w) as (_ & _ & _ & _ & _ & e & He & _).
    rewrite He.
    destruct (verifyProviderInstalled_uncached_trace s w Hi) as [-> | ->];
      simpl; eauto.
  - intros Hi Hu. rewrite verifyProviderIsReady_stages.
    rewrite verifyProviderInstalled_cached by assumption. cbn [truthy].
    rewrite verifyProviderUp_bind. unfold bind.
    pose proof (verifyProviderUp_outcome s w) as (_ & _ & _ & _ & _ & e & He & _).
    rewrite He.
    pose proof (initialize_trace_queries
                  (st (verifyProviderUp provider ret s w))
                  (world (verifyProviderUp provider ret s w))) as [C _].
    cbv zeta in C.
    destruct (verifyProviderUp_uncached_trace s w Hu) as [-> | ->];
      destruct (truthy e); simpl; rewrite ?C; split; eauto.
  - intros Hi Hu Hn. rewrite verifyProviderIsReady_stages.
    rewrite verifyProviderInstalled_cached by assumption. cbn [truthy].
    rewrite verifyProviderUp_cached by assumption. cbn [truthy].
    pose proof (initialize_trace_queries s w) as [C1 C2]. cbv zeta in C1, C2.
    rewrite C1, C2.
    destruct (initialize_uncached_trace s w Hn) as [-> | [c ->]]; eauto.
Qed.

(** C8: a provider query that answers with an error has that very error
    handed to the callback, in the state the module variables had when
    the query was made: nothing is cached for the query that failed, and
    what the earlier checks of the same call had established stays.
    (1), (2): [verifyProviderInstalled] and [verifyProviderUp], the fact
    not cached.  (3)-(5): [verifyProviderIsReady], for a failing
    [isInstalled], [isUp] (after a passed installed check) and
    [engineConfig] (after passed installed and up checks).  (6): a later
    run of the gate, in any world, starts with the query for the first
    fact that is not cached and makes no query for a cached one.  (7): a
    fact that is cached before a check is cached after it, however the
    check ends. *)
Theorem query_errors_are_not_cached {A} (callback : Value -> Proc A)
    (s : State) (w : W) (err : Value) :
  (isProviderInstalled s = false ->
   verdict (snd (provider_isInstalled provider w)) = Failed err ->
   verifyProviderInstalled provider callback s w =
   prepend [Prov PIsInstalled] (callback err s (fst (provider_isInstalled provider w)))) /\
  (isProviderUp s = false ->
   verdict (snd (provider_isUp provider w)) = Failed err ->
   verifyProviderUp provider callback s w =
   prepend [Prov PIsUp] (callback err s (fst (provider_isUp provider w)))) /\
  (isProviderInstalled s = false ->
   verdict (snd (provider_isInstalled provider w)) = Failed err ->
   verifyProviderIsReady provider callback s w =
   prepend [Prov PIsInstalled] (callback err s (fst (provider_isInstalled provider w)))) /\
  (let g1 := verifyProviderInstalled provider ret s w in
   let q := provider_isUp provider (world g1) in
   result g1 = Returned VNull ->
   isProviderUp s = false ->
   verdict (snd q) = Failed err ->
   verifyProviderIsReady provider callback s w =
   prepend (trace g1 ++ [Prov PIsUp]) (callback err (st g1) (fst q)) /\
   isProviderUp (st g1) = false /\
   engineHasBeenInit (st g1) = engineHasBeenInit s /\
   (isProviderInstalled s = true -> st g1 = s /\ trace g1 = [])) /\
  (let g1 := verifyProviderInstalled provider ret s w in
   let g2 := verifyProviderUp provider ret (st g1) (world g1) in
   let q := provider_engineConfig provider (world g2) in
   result g1 = Returned VNull ->
   result g2 = Returned VNull ->
   engineHasBeenInit s = false ->
   verdict (snd q) = Failed err ->
   verifyProviderIsReady provider callback s w =
   prepend (trace g1 ++ trace g2 ++ [Prov PEngineConfig]) (callback err (st g2) (fst q)) /\
   engineHasBeenInit (st g2) = false /\
   (isProviderInstalled s = true -> isProviderUp s = true ->
    st g2 = s /\ trace g1 ++ trace g2 = [])) /\
  (forall w',
   let t := trace (verifyProviderIsReady provider ret s w') in
   (isProviderInstalled s = false ->
    (exists rest, trace (verifyProviderInstalled provider ret s w') = Prov PIsInstalled :: rest) /\
    (exists rest, t = Prov PIsInstalled :: rest)) /\
   (isProviderUp s = false ->
    exists rest, trace (verifyProviderUp provider ret s w') = Prov PIsUp :: rest) /\
   (isProviderInstalled s = true -> isProviderUp s = false ->
    (exists rest, t = Prov PIsUp :: rest) /\
    count (is_provider PIsInstalled) t = 0) /\
   (isProviderInstalled s = true -> isProviderUp s = true ->
    engineHasBeenInit s = false ->
    (exists rest, t = Prov PEngineConfig :: rest) /\
    count (is_provider PIsInstalled) t = 0 /\ count (is_provider PIsUp) t = 0)) /\
  (grows s (st (verifyProviderInstalled provider ret s w)) /\
   grows s (st (verifyProviderUp provider ret s w)) /\
   grows s (st (verifyProviderIsReady provider ret s w))).
Proof.
  split; [|split; [|split; [|split; [|split; [|split]]]]].
  - intros Hi Hv.
    destruct (provider_isInstalled provider w) as [w1 a] eqn:Hq.
    simpl in Hv |- *. apply verdict_failed in Hv as [He <-].
    apply (verifyProviderInstalled_query_error _ _ _ _ _ Hi Hq He).
  - intros Hu Hv.
    destruct (provider_isUp provider w) as [w1 a] eqn:Hq.
    simpl in Hv |- *. apply verdict_failed in Hv as [He <-].
    apply (verifyProviderUp_query_error _ _ _ _ _ Hu Hq He).
  - intros Hi Hv.
    destruct (provider_isInstalled provider w) as [w1 a] eqn:Hq.
    simpl in Hv |- *. apply verdict_failed in Hv as [He <-].
    rewrite verifyProviderIsReady_stages.
    rewrite (verifyProviderInstalled_query_error _ _ _ _ _ Hi Hq He).
    now rewrite He.
  - intros g1 q H1 Hu Hv.
    pose proof (verifyProviderInstalled_outcome s w) as (_ & U1 & N1 & _).
    fold g1 in U1, N1.
    assert (Hu1 : isProviderUp (st g1) = false) by congruence.
    destruct (provider_isUp provider (world g1)) as [w2 a] eqn:Hq.
    subst q. simpl in Hv |- *. apply verdict_failed in Hv as [He <-].
    repeat split; try assumption.
    + rewrite verifyProviderIsReady_stages, verifyProviderInstalled_bind.
      rewrite (bind_returned _ _ _ _ _ H1). cbn [truthy]. fold g1.
      rewrite (verifyProviderUp_query_error _ _ _ _ _ Hu1 Hq He).
      now rewrite He, prepend_prepend.
    + subst g1. now rewrite verifyProviderInstalled_cached.
    + subst g1. now rewrite verifyProviderInstalled_cached.
  - intros g1 g2 q H1 H2 Hn Hv.
    pose proof (verifyProviderInstalled_outcome s w) as (_ & _ & N1 & _).
    pose proof (verifyProviderUp_outcome (st g1) (world g1)) as (_ & _ & N2 & _).
    fold g1 in N1. fold g2 in N2.
    assert (Hn2 : engineHasBeenInit (st g2) = false) by congruence.
    destruct (provider_engineConfig provider (world g2)) as [w3 a] eqn:Hq.
    subst q. simpl in Hv |- *. apply verdict_failed in Hv as [He <-].
    repeat split; try assumption.
    + rewrite (verifyProviderIsReady_after_checks callback s w H1 H2).
      fold g1 g2.
      rewrite (initialize_query_error _ _ _ _ _ Hn2 Hq He).
      rewrite prepend_prepend. now rewrite <- app_assoc.
    + subst g2 g1. rewrite verifyProviderInstalled_cached by assumption.
      now rewrite verifyProviderUp_cached.
    + subst g2 g1. rewrite verifyProviderInstalled_cached by assumption.
      now rewrite verifyProviderUp_cached.
  - intros w' t.
    pose proof (verifyProviderIsReady_first_query s w') as (F1 & F2 & F3).
    cbv zeta in F1, F2, F3. fold t in F1, F2, F3.
    split; [|split; [|split]].
    + intros H. split; [|now apply F1].
      destruct (verifyProviderInstalled_uncached_trace s w' H) as [-> | ->]; eauto.
    + intros H.
      destruct (verifyProviderUp_uncached_trace s w' H) as [-> | ->]; eauto.
    + exact F2.
    + exact F3.
  - split; [|split].
    + pose proof (verifyProviderInstalled_outcome s w) as (_ & U & N & I & _).
      unfold grows. rewrite U, N. auto.
    + pose proof (verifyProviderUp_outcome s w) as (_ & I & N & U & _).
      unfold grows. rewrite I, N. auto.
    + apply verifyProviderIsReady_outcome.
Qed.

(** * Further properties of the module *)

(** ** The backend handle, once set *)

Lemma run_op_engine (M : EngineModule W) (op : Op) (s : State) (w : W) :
  engine s = Some M -> engine (st (run_op provider modules op s w)) = Some M.
Proof.
  intros HM. pose proof (st_gated op s w) as H.
  pose proof (verifyProviderIsReady_outcome s w) as (G & _).
  pose proof (verifyProviderInstalled_outcome s w) as (I & _).
  destruct op; try (rewrite H; congruence).
  destruct H as [-> | [Hn _]]; congruence.
Qed.

Lemma exports_init_loaded (M : EngineModule W) (globalConfig : GlobalConfig) s w :
  engine s = Some M ->
  exports_init modules globalConfig s w = mkRun [] s w (Returned tt).
Proof. intros H. unfold exports_init, read. now rewrite H. Qed.

(** X1: once [engine] holds a module (a backend, or a module loaded by
    mistake) it holds that same module after any sequence of exported
    calls, and from then on [exports.init], with whatever configuration,
    loads nothing, registers nothing and leaves the module variables
    alone. *)
Theorem engine_is_set_once (M : EngineModule W) (s s' : State) :
  engine s = Some M ->
  steps provider modules s s' ->
  engine s' = Some M /\
  forall globalConfig w,
    exports_init modules globalConfig s' w = mkRun [] s' w (Returned tt).
Proof.
  intros HM Hs.
  assert (H : engine s' = Some M).
  { induction Hs as [s | s op w s' _ IH]; [assumption|].
    apply IH. now apply run_op_engine. }
  split; [assumption|]. intros. now apply exports_init_loaded with M.
Qed.

Lemma exports_init_again (M : EngineModule W) (configs : list GlobalConfig) s w :
  engine s = Some M ->
  sequence (map (exports_init modules) configs) s w =
  mkRun [] s w (Returned (repeat tt (length configs))).
Proof.
  intros H. induction configs as [|c configs IH]; simpl; [reflexivity|].
  unfold bind at 1. rewrite (exports_init_loaded M) by assumption. simpl.
  unfold bind. rewrite IH. reflexivity.
Qed.

Lemma exports_init_fresh (B : Backend W) (globalConfig : GlobalConfig) s w :
  engine s = None ->
  modules ("./engine/" ++ globalConfig_engine globalConfig ++ ".js") =
    Some (IsBackend B) ->
  exports_init modules globalConfig s w =
  mkRun [RequireModule ("./engine/" ++ globalConfig_engine globalConfig ++ ".js");
         Back BGetProviderModule;
         DepsRegister "providerModule" (snd (engine_getProviderModule B w))]
    (set_engine (Some (IsBackend B)) s) (fst (engine_getProviderModule B w))
    (Returned tt).
Proof.
  intros Hn Hm. unfold exports_init, read, bind, require.
  rewrite Hn, Hm. simpl.
  unfold assign, with_engine, read, call, ret, prepend; simpl.
  now destruct (engine_getProviderModule B w).
Qed.

(** X2: the first call wins.  Start with [engine] null.  (1) If the first
    of a run of [exports.init] calls names a backend module, the run
    loads one module and registers one provider module in all, whatever
    the later calls name, and leaves [engine] holding the first module.
    (2) If the first call names a module that exists but is not a
    backend, [engine] is set to it all the same, a TypeError is thrown at
    [engine.getProviderModule()] and nothing is registered; every later
    [exports.init] then does nothing, so that module stays.  (3) If it
    names no module, [require] throws and [engine] stays null. *)
Theorem init_first_call_wins (globalConfig : GlobalConfig)
    (configs : list GlobalConfig) (s : State) (w : W) :
  engine s = None ->
  let path := ("./engine/" ++ globalConfig_engine globalConfig ++ ".js")%string in
  (forall B, modules path = Some (IsBackend B) ->
     let r := sequence (map (exports_init modules) (globalConfig :: configs)) s w in
     st r = set_engine (Some (IsBackend B)) s /\
     result r = Returned (repeat tt (S (length configs))) /\
     trace r =
       [RequireModule path; Back BGetProviderModule;
        DepsRegister "providerModule" (snd (engine_getProviderModule B w))] /\
     count is_require (trace r) = 1 /\
     count is_deps_register (trace r) = 1) /\
  (modules path = Some NotBackend ->
     exports_init modules globalConfig s w =
       mkRun [RequireModule path] (set_engine (Some NotBackend) s) w
         (Thrown TypeError) /\
     forall globalConfig' w',
       exports_init modules globalConfig' (set_engine (Some NotBackend) s) w' =
       mkRun [] (set_engine (Some NotBackend) s) w' (Returned tt)) /\
  (modules path = None ->
     exports_init modules globalConfig s w =
       mkRun [RequireModule path] s w (Thrown ModuleNotFound)).
Proof.
  intros Hn path. split; [|split].
  - intros B Hm r.
    assert (Hr : r = mkRun
              [RequireModule path; Back BGetProviderModule;
               DepsRegister "providerModule" (snd (engine_getProviderModule B w))]
              (set_engine (Some (IsBackend B)) s) (fst (engine_getProviderModule B w))
              (Returned (repeat tt (S (length configs))))).
    { subst r. simpl. unfold bind at 1.
      rewrite (exports_init_fresh B) by assumption. simpl.
      unfold bind. rewrite (exports_init_again (IsBackend B)) by reflexivity.
      reflexivity. }
    rewrite Hr. simpl. repeat split.
  - intros Hm. split.
    + unfold exports_init, read, bind, require. fold path. now rewrite Hn, Hm.
    + intros. now apply exports_init_loaded with NotBackend.
  - intros Hm. unfold exports_init, read, bind, require. fold path.
    now rewrite Hn, Hm.
Qed.

(** ** Once every fact is cached *)

(** X3: after a run of the gate that succeeded, the provider is never
    asked again: in any state reached from there by any sequence of
    exported calls ([down] included), in any world, the gate makes no
    call at all and hands on [null], and [list] goes straight to the
    backend. *)
Theorem gate_is_never_rechecked {A} (s s' : State) (w w' : W) (err : Value)
    (appName : Value) (callback : Callback A) :
  let g := verifyProviderIsReady provider ret s w in
  result g = Returned err -> truthy err = false ->
  steps provider modules (st g) s' ->
  verifyProviderIsReady provider ret s' w' = mkRun [] s' w' (Returned VNull) /\
  (forall B, engine s' = Some (IsBackend B) ->
     exports_list provider (AVal appName) (AFun callback) s' w' =
     prepend [Back (BList (PValue appName))]
       (callback (snd (engine_list B (PValue appName) w')) s'
          (fst (engine_list B (PValue appName) w')))).
Proof.
  intros g Hr He Hs.
  pose proof (verifyProviderIsReady_outcome s w) as (_ & _ & _ & R).
  fold g in R. rewrite Hr in R. destruct R as [_ R].
  destruct (R He) as (_ & I & U & N).
  destruct (steps_grows _ _ Hs) as [(GI & GU & GN) _].
  assert (G : forall B (k : Value -> Proc B),
             verifyProviderIsReady provider k s' w' = k VNull s' w').
  { intros B k. rewrite verifyProviderIsReady_stages.
    rewrite verifyProviderInstalled_cached by auto. cbn [truthy].
    rewrite verifyProviderUp_cached by auto. cbn [truthy].
    now rewrite initialize_cached by auto. }
  split; [apply G|].
  intros B HB. unfold exports_list. rewrite G. cbn [truthy].
  unfold with_engine, read. rewrite HB. unfold call, invoke, observe.
  now destruct (engine_list B (PValue appName) w').
Qed.

(** ** [up] and [down] and the module variables *)

(** X4: [up] and [down] never use the [engine] variable: in any state,
    loaded or not, they return (the callback [done] is reached), call no
    backend operation, and leave [engine], the up fact and the
    initialised fact as they were; in particular a successful [up] does
    not cache the up fact. *)
Theorem up_down_leave_engine_alone (attempts : Value) (s : State) (w : W) :
  (let r := exports_up provider attempts done s w in
   (exists args, result r = Returned args) /\
   engine (st r) = engine s /\
   isProviderUp (st r) = isProviderUp s /\
   engineHasBeenInit (st r) = engineHasBeenInit s /\
   count is_backend_call (trace r) = 0) /\
  (let r := exports_down provider attempts done s w in
   (exists args, result r = Returned args) /\
   engine (st r) = engine s /\
   isProviderUp (st r) = isProviderUp s /\
   engineHasBeenInit (st r) = engineHasBeenInit s /\
   count is_backend_call (trace r) = 0).
Proof.
  destruct s as [en i u n].
  split; cbv zeta; [unfold exports_up | unfold exports_down];
    crush; repeat split; eauto.
Qed.

(** ** The provider is installed but not up *)

(** X5: when the installed check passes and, the up fact not being
    cached, the provider answers that it is not up, the gate hands on the
    error whose message is [Provider "<name>" is NOT up!], with [<name>]
    what [getName()] returns then, and does not cache the up fact;
    [list(appName, callback)] delivers that error to its callback, having
    made no [engineConfig] query and no backend call. *)
Theorem gate_when_not_up {A} (callback : Value -> Proc A) (appName : Value)
    (s : State) (w : W) :
  let g1 := verifyProviderInstalled provider ret s w in
  let q := provider_isUp provider (world g1) in
  let n := provider_getName provider (fst q) in
  let error := VError ("Provider " ++ dquote ++ snd n ++ dquote ++ " is NOT up!") in
  result g1 = Returned VNull ->
  isProviderUp s = false ->
  verdict (snd q) = No ->
  verifyProviderIsReady provider callback s w =
    prepend (trace g1 ++ [Prov PIsUp; Prov PGetName]) (callback error (st g1) (fst n)) /\
  isProviderUp (st g1) = false /\
  (let r := exports_list provider (AVal appName) (AFun done) s w in
   result r = Returned [error] /\
   count (is_provider PEngineConfig) (trace r) = 0 /\
   count is_backend_call (trace r) = 0).
Proof.
  intros g1 q n error H1 Hu Hv.
  pose proof (verifyProviderInstalled_outcome s w) as (_ & U1 & _ & _ & C1 & _).
  pose proof (verifyProviderInstalled_trace s w) as T1.
  fold g1 in U1, C1, T1.
  assert (Hu1 : isProviderUp (st g1) = false) by congruence.
  destruct (provider_isUp provider (world g1)) as [w2 a] eqn:Hq.
  subst q. simpl in Hv, n. apply verdict_no in Hv as [He Ht].
  assert (G : forall B (k : Value -> Proc B),
            verifyProviderIsReady provider k s w =
            prepend (trace g1 ++ [Prov PIsUp; Prov PGetName]) (k error (st g1) (fst n))).
  { intros B k.
    rewrite verifyProviderIsReady_stages, verifyProviderInstalled_bind.
    rewrite (bind_returned _ _ _ _ _ H1). cbn [truthy]. fold g1.
    rewrite (verifyProviderUp_absent _ _ _ _ _ Hu1 Hq He Ht).
    unfold provider_error. fold n. fold error. cbn [truthy].
    now rewrite prepend_prepend. }
  assert (N1 : count (is_provider PEngineConfig) (trace g1) = 0).
  { eapply count_none with (P := fun e => e <> Prov PEngineConfig).
    - intros [[]| | |] H; simpl; congruence.
    - apply Forall_forall. intros x Hx Heq. subst x. contradiction. }
  split; [apply G | split; [assumption|]].
  cbv zeta. unfold exports_list. rewrite G. subst error. cbn [truthy].
  unfold invoke, done, ret, prepend; simpl. rewrite app_nil_r, !count_app, C1, N1.
  repeat split.
Qed.

(** ** [start] and its optional argument *)

(** X6: [start(cid, callback)] is [start(cid, null, callback)].  And
    [start] called without a function to call back, its options not being
    a function either, loses a gate error: the gate runs, and then a
    TypeError is thrown in place of the callback, with no backend call. *)
Theorem start_optional_argument {A} (cid : Value) (s : State) (w : W) :
  (forall callback : Callback A,
     exports_start provider cid (AFun callback) (AVal VUndefined) s w =
     exports_start provider cid (AVal VNull) (AFun callback) s w) /\
  (forall (startOptions c err : Value),
     let g := verifyProviderIsReady provider ret s w in
     result g = Returned err -> truthy err = true ->
     exports_start provider cid (AVal startOptions) (AVal c : Arg W A) s w =
       mkRun (trace g) (st g) (world g) (Thrown TypeError) /\
     count is_backend_call (trace g) = 0).
Proof.
  split; [reflexivity|].
  intros startOptions c err g Hr He.
  pose proof (verifyProviderIsReady_outcome s w) as (_ & _ & _ & R).
  fold g in R. rewrite Hr in R. destruct R as [R _].
  split; [|auto].
  cbv [exports_start is_function is_undefined andb].
  rewrite verifyProviderIsReady_bind, (bind_returned _ _ _ _ _ Hr), He.
  fold g. unfold invoke, throw, prepend; simpl. now rewrite app_nil_r.
Qed.

(** ** [build] without an image *)

(** X7: [build] on [null] or [undefined] (an image whose [build]
    property cannot be read) still runs the gate, with whatever the gate
    caches; a gate error reaches the callback, and otherwise a TypeError
    is thrown: neither the backend's [build] nor its [pull] is called. *)
Theorem build_without_image {A} (image : Value) (callback : Callback A)
    (s : State) (w : W) :
  get_prop image "build" = None ->
  let g := verifyProviderIsReady provider ret s w in
  match result g with
  | Returned err =>
      exports_build provider image callback s w =
      if truthy err then prepend (trace g) (callback [err] (st g) (world g))
      else mkRun (trace g) (st g) (world g) (Thrown TypeError)
  | Thrown e =>
      exports_build provider image callback s w =
      mkRun (trace g) (st g) (world g) (Thrown e)
  end /\
  count is_backend_build (trace (exports_build provider image done s w)) = 0 /\
  count is_backend_pull (trace (exports_build provider image done s w)) = 0.
Proof.
  intros Hi g.
  pose proof (verifyProviderIsReady_no_build s w) as [Nb Np]. fold g in Nb, Np.
  assert (E : forall B (cb : Callback B),
            exports_build provider image cb s w =
            match result g with
            | Returned err =>
                if truthy err then prepend (trace g) (cb [err] (st g) (world g))
                else mkRun (trace g) (st g) (world g) (Thrown TypeError)
            | Thrown e => mkRun (trace g) (st g) (world g) (Thrown e)
            end).
  { intros B cb. unfold exports_build.
    rewrite verifyProviderIsReady_bind. unfold bind. fold g.
    destruct (result g) as [err|e]; [|reflexivity].
    rewrite Hi. destruct (truthy err); [reflexivity|].
    unfold throw, prepend; simpl. now rewrite app_nil_r. }
  split.
  - rewrite E. now destruct (result g).
  - rewrite E. destruct (result g) as [err|e]; [destruct (truthy err)|];
      unfold done, ret, prepend; simpl; rewrite ?app_nil_r; auto.
Qed.

(** ** [list] and [create] called with the callback alone *)

(** C5, where the code departs from it: unlike [start], [list] and
    [create] do not shift their arguments, although their parameters
    [appName] and [createOptions] are documented as optional.  Called
    with the callback alone, [list(callback)] and [create(callback)] lose
    a gate error: the gate runs, and then a TypeError is thrown at
    [callback(err)], [callback] being [undefined]; nothing reaches the
    function that was passed and no backend call is made.  The same gate
    error reaches the callback of [list(appName, callback)],
    [create(createOptions, callback)] and [start(cid, callback)]. *)
Theorem list_create_do_not_shift {A} (callback : Callback A) (s : State) (w : W)
    (err : Value) :
  let g := verifyProviderIsReady provider ret s w in
  result g = Returned err -> truthy err = true ->
  exports_list provider (AFun callback) (AVal VUndefined) s w =
    mkRun (trace g) (st g) (world g) (Thrown TypeError) /\
  exports_create provider (AFun callback) (AVal VUndefined) s w =
    mkRun (trace g) (st g) (world g) (Thrown TypeError) /\
  count is_backend_call (trace g) = 0 /\
  (forall appName,
     exports_list provider (AVal appName) (AFun callback) s w =
     prepend (trace g) (callback [err] (st g) (world g))) /\
  (forall createOptions,
     exports_create provider (AVal createOptions) (AFun callback) s w =
     prepend (trace g) (callback [err] (st g) (world g))) /\
  (forall cid,
     exports_start provider cid (AFun callback) (AVal VUndefined) s w =
     prepend (trace g) (callback [err] (st g) (world g))).
Proof.
  intros g Hr He.
  pose proof (verifyProviderIsReady_outcome s w) as (_ & _ & _ & R).
  fold g in R. rewrite Hr in R. destruct R as [R _].
  assert (G : forall K : Value -> Proc A,
            verifyProviderIsReady provider K s w =
            prepend (trace g) (K err (st g) (world g))).
  { intros K. now rewrite verifyProviderIsReady_bind, (bind_returned _ _ _ _ _ Hr). }
  assert (T : prepend (trace g) (@throw W A TypeError (st g) (world g)) =
              mkRun (trace g) (st g) (world g) (Thrown TypeError)).
  { unfold throw, prepend; simpl. now rewrite app_nil_r. }
  repeat split; intros.
  - unfold exports_list. rewrite G, He. exact T.
  - unfold exports_create. rewrite G, He. exact T.
  - auto.
  - unfold exports_list. rewrite G, He. reflexivity.
  - unfold exports_create. rewrite G, He. reflexivity.
  - cbv [exports_start is_function is_undefined andb]. rewrite G, He. reflexivity.
Qed.

(** ** [isUp] *)

Lemma exports_isUp_run (s : State) (w : W) :
  let q := provider_isUp provider w in
  exports_isUp provider done s w = mkRun [Prov PIsUp] s (fst q) (Returned (snd q)).
Proof.
  cbv zeta. unfold exports_isUp, call, done, ret, prepend.
  now destruct (provider_isUp provider w) as [w1 a].
Qed.

Lemma exports_isUp_sequence (n : nat) (s : State) (w : W) :
  exists t w' answers,
    sequence (repeat (exports_isUp provider done) n) s w =
      mkRun t s w' (Returned answers) /\
    count (is_provider PIsUp) t = n /\ length t = n /\ length answers = n.
Proof.
  revert w. induction n as [|n IH]; intros w.
  - exists [], w, []. repeat split.
  - destruct (IH (fst (provider_isUp provider w))) as (t & w' & l & E & C & L & La).
    exists (Prov PIsUp :: t), w', (snd (provider_isUp provider w) :: l).
    split.
    + simpl. unfold bind. rewrite exports_isUp_run. simpl. rewrite E. simpl.
      unfold prepend; simpl. now rewrite ?app_nil_r.
    + unfold count in *. simpl. repeat split; congruence.
Qed.

(** X9: [isUp] is never answered from the cache and caches nothing:
    whatever the up fact, [n] calls in a row make [n] provider queries,
    call back [n] times, and leave the module variables as they were. *)
Theorem isUp_always_queries (n : nat) (s : State) (w : W) :
  let r := sequence (repeat (exports_isUp provider done) n) s w in
  count (is_provider PIsUp) (trace r) = n /\
  length (trace r) = n /\
  st r = s /\
  exists answers, result r = Returned answers /\ length answers = n.
Proof.
  cbv zeta.
  destruct (exports_isUp_sequence n s w) as (t & w' & l & -> & C & L & La).
  simpl. repeat split; try assumption. now exists l.
Qed.

(** ** One run of the gate *)

Lemma verifyProviderInstalled_shape (s : State) (w : W) :
  let g := verifyProviderInstalled provider ret s w in
  (trace g = [] /\ result g = Returned VNull) \/
  (trace g = [Prov PIsInstalled] /\ exists e, result g = Returned e) \/
  (trace g = [Prov PIsInstalled; Prov PGetName] /\
   exists e, result g = Returned e /\ truthy e = true).
Proof. crush; eauto 6. Qed.

Lemma verifyProviderUp_shape (s : State) (w : W) :
  let g := verifyProviderUp provider ret s w in
  (trace g = [] /\ result g = Returned VNull) \/
  (trace g = [Prov PIsUp] /\ exists e, result g = Returned e) \/
  (trace g = [Prov PIsUp; Prov PGetName] /\
   exists e, result g = Returned e /\ truthy e = true).
Proof. crush; eauto 6. Qed.

Lemma initialize_shape (s : State) (w : W) :
  let t := trace (initialize provider ret s w) in
  t = [] \/ t = [Prov PEngineConfig] \/
  exists config, t = [Prov PEngineConfig; Back (BInit config)].
Proof. unfold initialize. crush; eauto. Qed.

(** X10: one run of the gate asks the provider each question at most
    once ([getName] included), never calls the provider's [up] or [down],
    and makes at most one backend call, which is [init]. *)
Theorem gate_asks_at_most_once (s : State) (w : W) :
  let t := trace (verifyProviderIsReady provider ret s w) in
  (forall c, count (is_provider c) t <= 1) /\
  count (is_provider PUp) t = 0 /\
  count (is_provider PDown) t = 0 /\
  count is_backend_call t <= 1 /\
  count is_backend_call t = count is_backend_init t.
Proof.
  cbv zeta. rewrite verifyProviderIsReady_stages_bind. unfold bind.
  pose proof (verifyProviderInstalled_shape s w) as S1. cbv zeta in S1.
  destruct (verifyProviderInstalled provider ret s w) as [t1 s1 w1 r1].
  simpl in S1 |- *.
  assert (F : forall l,
            (l = [Prov PIsInstalled] \/ l = [Prov PIsInstalled; Prov PGetName] \/
             l = [Prov PIsUp] \/ l = [Prov PIsUp; Prov PGetName] \/
             l = [Prov PIsInstalled; Prov PIsUp] \/
             l = [Prov PIsInstalled; Prov PIsUp; Prov PGetName] \/
             l = [] \/ l = [Prov PEngineConfig] \/
             l = [Prov PIsInstalled; Prov PEngineConfig] \/
             l = [Prov PIsUp; Prov PEngineConfig] \/
             l = [Prov PIsInstalled; Prov PIsUp; Prov PEngineConfig] \/
             exists c,
               l = [Prov PEngineConfig; Back (BInit c)] \/
               l = [Prov PIsInstalled; Prov PEngineConfig; Back (BInit c)] \/
               l = [Prov PIsUp; Prov PEngineConfig; Back (BInit c)] \/
               l = [Prov PIsInstalled; Prov PIsUp; Prov PEngineConfig; Back (BInit c)]) ->
            (forall c, count (is_provider c) l <= 1) /\
            count (is_provider PUp) l = 0 /\
            count (is_provider PDown) l = 0 /\
            count is_backend_call l <= 1 /\
            count is_backend_call l = count is_backend_init l).
  { intros l H.
    repeat match goal with
           | H : _ \/ _ |- _ => destruct H
           | H : exists _, _ |- _ => destruct H
           end; subst l;
      (split; [intros []; cbv; lia | cbv; repeat split; lia]). }
  apply F.
  assert (D : forall e : Value, truthy e = true \/ truthy e = false).
  { intros e. destruct (truthy e); auto. }
  destruct S1 as [[-> ->] | [[-> [e1 ->]] | [-> [e1 [-> T1]]]]]; simpl.
  2: destruct (D e1) as [T1 | T1]; rewrite T1; simpl; [tauto|].
  3: rewrite T1; simpl; tauto.
  all: pose proof (verifyProviderUp_shape s1 w1) as S2; cbv zeta in S2;
    destruct (verifyProviderUp provider ret s1 w1) as [t2 s2 w2 r2]; simpl in S2 |- *;
    destruct S2 as [[-> ->] | [[-> [e2 ->]] | [-> [e2 [-> T2]]]]]; simpl;
    try (destruct (D e2) as [T2 | T2]); try rewrite T2; simpl; try tauto;
    pose proof (initialize_shape s2 w2) as S3; cbv zeta in S3;
    destruct S3 as [-> | [-> | [c ->]]]; simpl; try tauto;
    do 11 right; exists c; tauto.
Qed.

(** ** The two provider errors *)

Lemma string_length_append (a b : string) :
  String.length (a ++ b) = String.length a + String.length b.
Proof. induction a as [|c a IH]; simpl; [reflexivity | now rewrite IH]. Qed.

Lemma string_append_suffix (a b x y : string) :
  String.length x = String.length y -> (a ++ x = b ++ y)%string -> x = y.
Proof.
  revert b. induction a as [|c a IH]; intros [|d b] L H; simpl in H.
  - assumption.
  - subst x. simpl in L. rewrite string_length_append in L. lia.
  - subst y. simpl in L. rewrite string_length_append in L. lia.
  - injection H as _ H. now apply (IH b).
Qed.

(** X11: the error built for a provider that is not installed is never
    the error built for a provider that is not up, whatever name the
    provider gives on either occasion. *)
Theorem provider_errors_differ (s s' : State) (w w' : W) :
  result (makeProviderError provider "is NOT installed!" s w) <>
  result (makeProviderError provider "is NOT up!" s' w').
Proof.
  rewrite !makeProviderError_run. cbn [result]. unfold provider_error.
  intros H. injection H as H.
  set (n := snd (provider_getName provider w)) in H.
  set (n' := snd (provider_getName provider w')) in H.
  change (" is NOT installed!"%string) with (" is NOT instal" ++ "led!")%string in H.
  change (" is NOT up!"%string) with (" is NOT" ++ " up!")%string in H.
  change ((n ++ (String (ascii_of_nat 34) " is NOT instal" ++ "led!")) =
          (n' ++ (String (ascii_of_nat 34) " is NOT" ++ " up!")))%string in H.
  rewrite <- !string_append_assoc in H.
  apply string_append_suffix in H; [discriminate | reflexivity].
Qed.

(** ** The backend is initialised once *)

Lemma bind_quiet {A B} (p : Proc A) (k : A -> Proc B) s w :
  (forall a s' w',
     st (k a s' w') = s' /\ count is_backend_init (trace (k a s' w')) = 0) ->
  st (bind p k s w) = st (p s w) /\
  count is_backend_init (trace (bind p k s w)) =
  count is_backend_init (trace (p s w)).
Proof.
  intros H. unfold bind. destruct (result (p s w)); simpl; [|auto].
  destruct (H a (st (p s w)) (world (p s w))) as [-> C].
  rewrite count_app, C. auto.
Qed.

Ltac quiet :=
  intros;
  repeat match goal with
         | |- context [truthy ?e] => destruct (truthy e)
         | |- context [engine ?s] => destruct (engine s) as [[?|]|]
         | |- context [get_prop ?i ?n] => destruct (get_prop i n)
         | |- context [String.eqb ?a ?b] => destruct (String.eqb a b)
         | |- context [let (_, _) := ?x in _] => destruct x
         | c : ClientArg |- _ => destruct c
         | _ => progress (unfold with_engine, engine_method, read, call, done,
                           ret, throw, invoke, prepend, client_arg; simpl)
         end;
  split; reflexivity.

Lemma initialize_init_count (s : State) (w : W) :
  let g := initialize provider ret s w in
  count is_backend_init (trace g) <= 1 /\
  (engineHasBeenInit s = true -> count is_backend_init (trace g) = 0) /\
  (count is_backend_init (trace g) = 1 -> engineHasBeenInit (st g) = true) /\
  (engineHasBeenInit s = true -> engineHasBeenInit (st g) = true).
Proof.
  destruct s as [en i u [|]]; unfold initialize; crush; cbv; repeat split;
    intros; try lia; try discriminate.
Qed.

Lemma verifyProviderIsReady_init_count (s : State) (w : W) :
  let g := verifyProviderIsReady provider ret s w in
  count is_backend_init (trace g) <= 1 /\
  (engineHasBeenInit s = true -> count is_backend_init (trace g) = 0) /\
  (count is_backend_init (trace g) = 1 -> engineHasBeenInit (st g) = true).
Proof.
  assert (Z : forall t, count is_backend_call t = 0 -> count is_backend_init t = 0).
  { intros t. unfold count. induction t as [|[| [] | |] t IH]; simpl; auto; discriminate. }
  intros g.
  assert (Hg : g = bind (verifyProviderInstalled provider ret) (fun err =>
            if truthy err then ret err
            else bind (verifyProviderUp provider ret) (fun err =>
              if truthy err then ret err else initialize provider ret)) s w)
    by apply verifyProviderIsReady_stages_bind.
  clearbody g. unfold bind in Hg.
  pose proof (verifyProviderInstalled_outcome s w) as F1. cbv zeta in F1.
  destruct (verifyProviderInstalled provider ret s w) as [t1 s1 w1 r1].
  simpl in F1, Hg.
  destruct F1 as (_ & _ & N1 & _ & C1 & e1 & -> & _).
  apply Z in C1.
  destruct (truthy e1).
  { subst g; simpl. rewrite app_nil_r, C1. repeat split; intros; lia. }
  pose proof (verifyProviderUp_outcome s1 w1) as F2. cbv zeta in F2.
  destruct (verifyProviderUp provider ret s1 w1) as [t2 s2 w2 r2].
  simpl in F2, Hg.
  destruct F2 as (_ & _ & N2 & _ & C2 & e2 & -> & _).
  apply Z in C2.
  destruct (truthy e2).
  { subst g; simpl. rewrite !app_nil_r, count_app, C1, C2. repeat split; intros; lia. }
  pose proof (initialize_init_count s2 w2) as (L & Z3 & O & _).
  destruct (initialize provider ret s2 w2) as [t3 s3 w3 r3].
  simpl in L, Z3, O, Hg.
  assert (E : count is_backend_init (trace g) = count is_backend_init t3).
  { subst g. destruct r3; simpl; rewrite !count_app, C1, C2; reflexivity. }
  assert (S : st g = s3) by (subst g; now destruct r3).
  rewrite E, S. repeat split; auto. intros H. apply Z3. congruence.
Qed.

Lemma run_op_init_count (op : Op) (s : State) (w : W) :
  let r := run_op provider modules op s w in
  count is_backend_init (trace r) <= 1 /\
  (engineHasBeenInit s = true -> count is_backend_init (trace r) = 0) /\
  (count is_backend_init (trace r) = 1 -> engineHasBeenInit (st r) = true).
Proof.
  assert (G : forall (K : Value -> Proc (list Value)),
            (forall a s' w',
               st (K a s' w') = s' /\ count is_backend_init (trace (K a s' w')) = 0) ->
            let r := verifyProviderIsReady provider K s w in
            count is_backend_init (trace r) <= 1 /\
            (engineHasBeenInit s = true -> count is_backend_init (trace r) = 0) /\
            (count is_backend_init (trace r) = 1 -> engineHasBeenInit (st r) = true)).
  { intros K HK. cbv zeta. rewrite verifyProviderIsReady_bind.
    destruct (bind_quiet (verifyProviderIsReady provider ret) K s w HK) as [-> ->].
    apply verifyProviderIsReady_init_count. }
  assert (I : forall (K : Value -> Proc (list Value)),
            (forall a s' w',
               st (K a s' w') = s' /\ count is_backend_init (trace (K a s' w')) = 0) ->
            count is_backend_init (trace (verifyProviderInstalled provider K s w)) = 0).
  { intros K HK. rewrite verifyProviderInstalled_bind.
    destruct (bind_quiet (verifyProviderInstalled provider ret) K s w HK) as [_ ->].
    clear. crush; reflexivity. }
  assert (Z : forall t : list Event,
            count is_backend_init t = 0 ->
            count is_backend_init t <= 1 /\
            (engineHasBeenInit s = true -> count is_backend_init t = 0) /\
            (count is_backend_init t = 1 ->
             engineHasBeenInit (st (run_op provider modules op s w)) = true)).
  { intros t ->. repeat split; auto. discriminate. }
  destruct op; cbv zeta.
  - apply Z. simpl. unfold exports_getProviderName, bind, call, ret, prepend; simpl.
    now destruct (provider_getName provider w).
  - apply Z. simpl. unfold exports_isUp, call, done, ret, prepend; simpl.
    now destruct (provider_isUp provider w) as [w' a].
  - apply Z. simpl. unfold exports_init, read, bind, require.
    destruct (engine s); simpl; [reflexivity|].
    destruct (modules _) as [[B|]|]; simpl; [|reflexivity|reflexivity].
    unfold assign, with_engine, read, call, ret, prepend; simpl.
    now destruct (engine_getProviderModule B w).
  - apply Z. apply I. quiet.
  - apply Z. apply I. quiet.
  - apply G. quiet.
  - apply G. quiet.
  - apply G. quiet.
  - simpl. unfold exports_start.
    destruct (is_function (client_arg startOptions) && is_undefined (client_arg callback));
      apply G; quiet.
  - apply G. quiet.
  - apply G. quiet.
  - apply G. quiet.
Qed.

Lemma count_bind {A B} q (p : Proc A) (k : A -> Proc B) s w :
  count q (trace (bind p k s w)) =
  count q (trace (p s w)) +
  match result (p s w) with
  | Returned a => count q (trace (k a (st (p s w)) (world (p s w))))
  | Thrown _ => 0
  end.
Proof.
  unfold bind. destruct (result (p s w)); simpl; [apply count_app | lia].
Qed.

Lemma sequence_init_count (ops : list Op) (s : State) (w : W) :
  let r := sequence (map (run_op provider modules) ops) s w in
  count is_backend_init (trace r) <= 1 /\
  (engineHasBeenInit s = true -> count is_backend_init (trace r) = 0).
Proof.
  revert s w. induction ops as [|op ops IH]; intros s w; cbv zeta.
  - simpl. split; auto.
  - simpl. rewrite count_bind.
    pose proof (run_op_init_count op s w) as (L & Z & O). cbv zeta in L, Z, O.
    pose proof (run_op_step op s w) as [(_ & _ & GN) _]. cbv zeta in GN.
    destruct (run_op provider modules op s w) as [t1 s1 w1 [a|e]];
      simpl in L, Z, O, GN |- *; [|split; [lia | intros H; rewrite (Z H); lia]].
    specialize (IH s1 w1). cbv zeta in IH. destruct IH as [L2 Z2].
    rewrite count_bind.
    assert (E : match result (sequence (map (run_op provider modules) ops) s1 w1) with
                | Returned a0 =>
                    count is_backend_init
                      (trace (@ret W _ (a :: a0)
                                (st (sequence (map (run_op provider modules) ops) s1 w1))
                                (world (sequence (map (run_op provider modules) ops) s1 w1))))
                | Thrown _ => 0
                end = 0).
    { now destruct (result (sequence _ s1 w1)). }
    rewrite E, Nat.add_0_r. split.
    + destruct (Nat.eq_dec (count is_backend_init t1) 1) as [H1 | H1].
      * rewrite (Z2 (O H1)). lia.
      * lia.
    + intros H. rewrite (Z H), (Z2 (GN H)). reflexivity.
Qed.

(** X12: in the life of the process the backend's [init] is called at
    most once: whatever exported calls are made one after the other from
    the initial state, in whatever world, their calls taken together
    contain at most one [engine.init]; and none, from a state where
    [engineHasBeenInit] is set. *)
Theorem engine_init_at_most_once (ops : list Op) (w : W) :
  count is_backend_init
    (trace (sequence (map (run_op provider modules) ops) initial w)) <= 1 /\
  (forall s : State, engineHasBeenInit s = true ->
     count is_backend_init
       (trace (sequence (map (run_op provider modules) ops) s w)) = 0).
Proof.
  split; [apply sequence_init_count|].
  intros s H. now apply sequence_init_count.
Qed.

End Properties.

(** * Examples on the demo host *)

Module Examples.

Import Demo.

Local Open Scope list_scope.

Lemma loaded_reachable : reachable provider modules loaded.
Proof.
  apply (steps_cons provider modules initial (OpInit globalConfig) ready).
  apply steps_refl.
Qed.

Lemma loaded_steps_warm : steps provider modules loaded warm.
Proof.
  apply (steps_cons provider modules loaded (OpList (CVal VUndefined) CDone) ready).
  apply steps_refl.
Qed.

(** C1, as stated, fails here: the provider is installed, the backend is
    loaded, [up] and [down] succeed, and the only calls they make are to
    the provider; no backend operation is called. *)
Lemma up_down_make_no_backend_call :
  result (verifyProviderInstalled provider ret loaded stopped) = Returned VNull /\
  exports_up provider (VNumber 3) done loaded stopped =
    mkRun [Prov PIsInstalled; Prov PUp] (mkState (Some (IsBackend docker)) true false false)
      ready (Returned [VNull]) /\
  exports_down provider (VNumber 3) done loaded ready =
    mkRun [Prov PIsInstalled; Prov PDown] (mkState (Some (IsBackend docker)) true false false)
      stopped (Returned [VNull]) /\
  ~ (exists c, In (Back c) (trace (exports_up provider (VNumber 3) done loaded stopped))) /\
  ~ (exists c, In (Back c) (trace (exports_down provider (VNumber 3) done loaded ready))).
Proof.
  repeat split; intros [c H]; simpl in H; intuition discriminate.
Qed.

Lemma up_down_delegate_to_provider_witness :
  result (verifyProviderInstalled provider ret loaded stopped) = Returned VNull /\
  truthy VNull = false /\
  exports_up provider (VNumber 3) done loaded stopped =
    mkRun [Prov PIsInstalled; Prov PUp] (mkState (Some (IsBackend docker)) true false false)
      ready (Returned [VNull]).
Proof.
  split; [reflexivity | split; [reflexivity|]].
  exact (proj1 (up_down_delegate_to_provider Host provider (VNumber 3) done
                  loaded stopped VNull eq_refl eq_refl)).
Defined.

Lemma up_when_not_installed_witness :
  isProviderInstalled loaded = false /\
  verdict (snd (provider_isInstalled provider bare)) = No /\
  exports_up provider (VNumber 3) done loaded bare =
    mkRun [Prov PIsInstalled; Prov PGetName] loaded bare
      (Returned [VError ("Provider " ++ dquote ++ "virtualbox" ++ dquote
                          ++ " is NOT installed!")]).
Proof.
  split; [reflexivity | split; [reflexivity|]].
  exact (proj1 (up_when_not_installed Host provider (VNumber 3) done
                  loaded bare eq_refl eq_refl)).
Defined.

Lemma verifyProviderIsReady_order_witness :
  In (Prov PEngineConfig) (trace (verifyProviderIsReady provider ret loaded ready)) /\
  result (verifyProviderInstalled provider ret loaded ready) = Returned VNull /\
  result (verifyProviderUp provider ret (mkState (Some (IsBackend docker)) true false false) ready)
    = Returned VNull /\
  isProviderInstalled loaded = false /\
  verdict (snd (provider_isInstalled provider bare)) = No /\
  trace (verifyProviderIsReady provider ret loaded bare) = [Prov PIsInstalled; Prov PGetName].
Proof.
  assert (H : In (Prov PEngineConfig)
                (trace (verifyProviderIsReady provider ret loaded ready))).
  { simpl. auto. }
  destruct (verifyProviderIsReady_order Host provider loaded ready) as [O _].
  destruct (O H) as (R1 & _ & R2 & _).
  destruct (verifyProviderIsReady_order Host provider loaded bare) as [_ F].
  destruct (F eq_refl eq_refl) as (T & _).
  exact (conj H (conj R1 (conj R2 (conj eq_refl (conj eq_refl T))))).
Defined.

Lemma checks_are_memoized_witness :
  1 <= 3 /\
  isProviderInstalled (@initial Host) = false /\
  verdict (snd (provider_isInstalled provider stopped)) = Yes /\
  count (is_provider PIsInstalled)
    (trace (sequence (repeat (verifyProviderInstalled provider ret) 3) initial stopped)) = 1 /\
  verdict (snd (provider_isUp provider ready)) = Yes /\
  truthy (arg 0 (snd (provider_engineConfig provider ready))) = false /\
  trace (exports_list provider (AVal VUndefined) (AFun done) loaded ready) =
    [Prov PIsInstalled; Prov PIsUp; Prov PEngineConfig; Back (BInit config);
     Back (BList (PValue VUndefined))] /\
  count is_provider_call
    (trace (exports_list provider (AVal VUndefined) (AFun done) warm stopped)) = 0.
Proof.
  destruct (checks_are_memoized Host provider) as (M1 & _ & M3).
  assert (L : 1 <= 3) by lia.
  destruct (M1 initial stopped 3 L eq_refl eq_refl) as (C & _).
  destruct (M3 docker loaded ready stopped VUndefined VUndefined
              eq_refl eq_refl eq_refl eq_refl eq_refl eq_refl eq_refl)
    as (T1 & _ & _ & _ & _ & C2 & _).
  exact (conj L (conj eq_refl (conj eq_refl (conj C (conj eq_refl (conj eq_refl
           (conj T1 C2))))))).
Defined.

Lemma readiness_facts_invariant_witness :
  reachable provider modules loaded /\
  steps provider modules loaded warm /\
  (isProviderUp warm = true -> isProviderInstalled warm = true) /\
  (engineHasBeenInit warm = true -> isProviderUp warm = true).
Proof.
  destruct (readiness_facts_invariant Host provider modules loaded warm
              loaded_reachable loaded_steps_warm) as (_ & _ & O).
  exact (conj loaded_reachable (conj loaded_steps_warm O)).
Defined.

Lemma gated_operations_pass_through_witness :
  reachable provider modules loaded /\
  get_prop dockerfile_image "build" = Some (VBool true) /\
  passes_through provider
    (fun cb => exports_create provider (AVal VNull) (AFun cb))
    (fun B w => ([Back (BCreate (PValue VNull))], engine_create B (PValue VNull) w))
    done loaded ready /\
  passes_through provider (exports_build provider dockerfile_image)
    (fun B w =>
       if truthy (VBool true)
       then ([Back (BBuild dockerfile_image)], engine_build B dockerfile_image w)
       else ([Back (BPull dockerfile_image)], engine_pull B dockerfile_image w))
    done loaded bare.
Proof.
  destruct (gated_operations_pass_through Host provider modules done loaded ready
              loaded_reachable) as (_ & _ & C & _).
  destruct (gated_operations_pass_through Host provider modules done loaded bare
              loaded_reachable) as (_ & _ & _ & _ & _ & _ & _ & B).
  exact (conj loaded_reachable (conj eq_refl
           (conj (C VNull) (B dockerfile_image (VBool true) eq_refl)))).
Defined.

Lemma build_branches_on_marker_witness :
  reachable provider modules loaded /\
  get_prop registry_image "build" = Some VUndefined /\
  result (verifyProviderIsReady provider ret loaded ready) = Returned VNull /\
  truthy VNull = false /\
  count is_backend_build (trace (exports_build provider registry_image done loaded ready)) = 0 /\
  count is_backend_pull (trace (exports_build provider registry_image done loaded ready)) = 1.
Proof.
  destruct (build_branches_on_marker Host provider modules registry_image VUndefined
              done loaded ready VNull loaded_reachable eq_refl eq_refl eq_refl)
    as (_ & C).
  exact (conj loaded_reachable (conj eq_refl (conj eq_refl (conj eq_refl C)))).
Defined.

Lemma query_errors_are_not_cached_witness :
  isProviderInstalled loaded = false /\
  verdict (snd (provider_isInstalled provider flaky)) = Failed unreachable /\
  verifyProviderInstalled provider ret loaded flaky =
    mkRun [Prov PIsInstalled] loaded ready (Returned unreachable) /\
  verifyProviderIsReady provider ret loaded flaky =
    mkRun [Prov PIsInstalled] loaded ready (Returned unreachable) /\
  isProviderUp (mkState (Some (IsBackend docker)) true false false) = false /\
  verdict (snd (provider_isUp provider flaky)) = Failed unreachable /\
  verifyProviderUp provider ret (mkState (Some (IsBackend docker)) true false false) flaky =
    mkRun [Prov PIsUp] (mkState (Some (IsBackend docker)) true false false) ready
      (Returned unreachable) /\
  verifyProviderIsReady provider ret (mkState (Some (IsBackend docker)) true false false) flaky =
    mkRun [Prov PIsUp] (mkState (Some (IsBackend docker)) true false false) ready
      (Returned unreachable) /\
  verdict (snd (provider_engineConfig provider unconfigured)) =
    Failed (VError "config unavailable") /\
  verifyProviderIsReady provider ret loaded unconfigured =
    mkRun [Prov PIsInstalled; Prov PIsUp; Prov PEngineConfig]
      (mkState (Some (IsBackend docker)) true true false) unconfigured
      (Returned (VError "config unavailable")) /\
  count (is_provider PIsInstalled)
    (trace (verifyProviderIsReady provider ret (mkState (Some (IsBackend docker)) true false false)
              ready)) = 0.
Proof.
  destruct (query_errors_are_not_cached Host provider ret loaded flaky unreachable)
    as (Q1 & _ & Q3 & _).
  destruct (query_errors_are_not_cached Host provider ret
              (mkState (Some (IsBackend docker)) true false false) flaky unreachable)
    as (_ & Q2 & _ & Q4 & _ & R & _).
  destruct (Q4 eq_refl eq_refl eq_refl) as (Q4' & _).
  destruct (query_errors_are_not_cached Host provider ret loaded unconfigured
              (VError "config unavailable")) as (_ & _ & _ & _ & Q5 & _ & _).
  destruct (Q5 eq_refl eq_refl eq_refl eq_refl) as (Q5' & _).
  destruct (R ready) as (_ & _ & R2 & _).
  destruct (R2 eq_refl eq_refl) as (_ & R2').
  exact (conj eq_refl (conj eq_refl (conj (Q1 eq_refl eq_refl)
          (conj (Q3 eq_refl eq_refl) (conj eq_refl (conj eq_refl
          (conj (Q2 eq_refl eq_refl) (conj Q4' (conj eq_refl
          (conj Q5' R2')))))))))).
Defined.

(** C9, as stated, fails here: [engine] is null, nothing is initialised,
    the installed and up checks pass, yet [list] does not throw: the
    [engineConfig] query fails and its error goes to the callback. *)
Lemma config_error_goes_to_callback :
  engine (@initial Host) = None /\
  engineHasBeenInit (@initial Host) = false /\
  result (verifyProviderInstalled provider ret initial unconfigured) = Returned VNull /\
  result (verifyProviderUp provider ret (mkState None true false false) unconfigured)
    = Returned VNull /\
  exports_list provider (AVal VUndefined) (AFun done) initial unconfigured =
    mkRun [Prov PIsInstalled; Prov PIsUp; Prov PEngineConfig]
      (mkState None true true false) unconfigured
      (Returned [VError "config unavailable"]) /\
  result (exports_list provider (AVal VUndefined) (AFun done) initial unconfigured)
    <> Thrown TypeError.
Proof. repeat split. discriminate. Qed.

Lemma null_engine_throws_at_init_witness :
  result (verifyProviderInstalled provider ret initial ready) = Returned VNull /\
  result (verifyProviderUp provider ret (mkState None true false false) ready)
    = Returned VNull /\
  engineHasBeenInit (@initial Host) = false /\
  truthy (arg 0 (snd (provider_engineConfig provider ready))) = false /\
  engine (@initial Host) = None /\
  exports_list provider (AVal VUndefined) (AFun done) initial ready =
    mkRun [Prov PIsInstalled; Prov PIsUp; Prov PEngineConfig]
      (mkState None true true false) ready (Thrown TypeError) /\
  engine loaded = Some (IsBackend docker) /\
  verifyProviderIsReady provider ret loaded ready =
    mkRun [Prov PIsInstalled; Prov PIsUp; Prov PEngineConfig; Back (BInit config)]
      warm ready (Returned VNull) /\
  truthy (arg 0 (snd (provider_engineConfig provider unconfigured))) = true /\
  exports_create provider (AVal VNull) (AFun done) loaded unconfigured =
    mkRun [Prov PIsInstalled; Prov PIsUp; Prov PEngineConfig]
      (mkState (Some (IsBackend docker)) true true false) unconfigured
      (Returned [VError "config unavailable"]) /\
  modules "./engine/docker.js" = Some (IsBackend docker) /\
  st (exports_init modules globalConfig initial ready) = loaded.
Proof.
  destruct (null_engine_throws_at_init Host provider modules (A := list Value)
              initial ready eq_refl eq_refl eq_refl) as (F & _ & I).
  destruct (F eq_refl) as (N & _).
  destruct (N eq_refl) as (_ & _ & L & _).
  destruct (null_engine_throws_at_init Host provider modules (A := Value)
              loaded ready eq_refl eq_refl eq_refl) as (F' & _ & _).
  destruct (F' eq_refl) as (_ & S).
  destruct (null_engine_throws_at_init Host provider modules (A := list Value)
              loaded unconfigured eq_refl eq_refl eq_refl) as (_ & E & _).
  destruct (E eq_refl) as (_ & _ & _ & _ & _ & C & _).
  destruct (I globalConfig docker initial ready eq_refl eq_refl) as (_ & I').
  exact (conj eq_refl (conj eq_refl (conj eq_refl (conj eq_refl (conj eq_refl
          (conj (L (AVal VUndefined) (AFun done)) (conj eq_refl
          (conj (S docker eq_refl ret) (conj eq_refl (conj (C VNull done)
          (conj eq_refl I'))))))))))).
Defined.

Lemma engine_is_set_once_witness :
  engine loaded = Some (IsBackend docker) /\
  steps provider modules loaded warm /\
  engine warm = Some (IsBackend docker) /\
  exports_init modules {| globalConfig_engine := "lxc" |} warm ready =
    mkRun [] warm ready (Returned tt).
Proof.
  destruct (engine_is_set_once Host provider modules (IsBackend docker) loaded warm
              eq_refl loaded_steps_warm) as [E I].
  exact (conj eq_refl (conj loaded_steps_warm
           (conj E (I {| globalConfig_engine := "lxc" |} ready)))).
Defined.

Lemma init_first_call_wins_witness :
  engine (@initial Host) = None /\
  modules ("./engine/" ++ globalConfig_engine globalConfig ++ ".js") =
    Some (IsBackend docker) /\
  count is_deps_register
    (trace (sequence (map (exports_init modules)
                        [globalConfig; {| globalConfig_engine := "lxc" |}; globalConfig])
              initial ready)) = 1 /\
  modules ("./engine/" ++ "provider" ++ ".js") = Some NotBackend /\
  exports_init modules {| globalConfig_engine := "provider" |} initial ready =
    mkRun [RequireModule "./engine/provider.js"] (mkState (Some NotBackend) false false false)
      ready (Thrown TypeError) /\
  exports_init modules globalConfig (mkState (Some NotBackend) false false false) ready =
    mkRun [] (mkState (Some NotBackend) false false false) ready (Returned tt) /\
  modules ("./engine/" ++ "lxc" ++ ".js") = None /\
  exports_init modules {| globalConfig_engine := "lxc" |} initial ready =
    mkRun [RequireModule "./engine/lxc.js"] initial ready (Thrown ModuleNotFound).
Proof.
  destruct (init_first_call_wins Host modules globalConfig
              [{| globalConfig_engine := "lxc" |}; globalConfig] initial ready
              eq_refl) as (B & _ & _).
  destruct (B docker eq_refl) as (_ & _ & _ & _ & C).
  destruct (init_first_call_wins Host modules {| globalConfig_engine := "provider" |}
              [] initial ready eq_refl) as (_ & N & _).
  destruct (N eq_refl) as (N1 & N2).
  destruct (init_first_call_wins Host modules {| globalConfig_engine := "lxc" |}
              [] initial ready eq_refl) as (_ & _ & M).
  exact (conj eq_refl (conj eq_refl (conj C (conj eq_refl (conj N1
          (conj (N2 globalConfig ready) (conj eq_refl (M eq_refl)))))))).
Defined.

Lemma gate_is_never_rechecked_witness :
  result (verifyProviderIsReady provider ret loaded ready) = Returned VNull /\
  truthy VNull = false /\
  steps provider modules warm warm /\
  verifyProviderIsReady provider ret warm bare = mkRun [] warm bare (Returned VNull).
Proof.
  destruct (gate_is_never_rechecked Host provider modules (A := list Value)
              loaded warm ready bare VNull VUndefined done
              eq_refl eq_refl (steps_refl provider modules warm)) as [G _].
  exact (conj eq_refl (conj eq_refl (conj (steps_refl provider modules warm) G))).
Defined.

Lemma gate_when_not_up_witness :
  result (verifyProviderInstalled provider ret loaded stopped) = Returned VNull /\
  isProviderUp loaded = false /\
  verdict (snd (provider_isUp provider stopped)) = No /\
  result (exports_list provider (AVal VUndefined) (AFun done) loaded stopped) =
    Returned [VError ("Provider " ++ dquote ++ "virtualbox" ++ dquote ++ " is NOT up!")].
Proof.
  destruct (gate_when_not_up Host provider (@ret Host Value) VUndefined loaded stopped
              eq_refl eq_refl eq_refl) as (_ & _ & R & _).
  exact (conj eq_refl (conj eq_refl (conj eq_refl R))).
Defined.

Lemma start_optional_argument_witness :
  result (verifyProviderIsReady provider ret loaded bare) =
    Returned (VError ("Provider " ++ dquote ++ "virtualbox" ++ dquote
                       ++ " is NOT installed!")) /\
  exports_start provider (VString "web") (AVal VNull)
    (AVal VUndefined : Arg Host (list Value)) loaded bare =
    mkRun [Prov PIsInstalled; Prov PGetName] loaded bare (Thrown TypeError).
Proof.
  destruct (start_optional_argument Host provider (A := list Value)
              (VString "web") loaded bare) as [_ S].
  destruct (S VNull VUndefined _ eq_refl eq_refl) as [S' _].
  exact (conj eq_refl S').
Defined.

Lemma build_without_image_witness :
  get_prop VNull "build" = None /\
  exports_build provider VNull done loaded ready =
    mkRun [Prov PIsInstalled; Prov PIsUp; Prov PEngineConfig; Back (BInit config)]
      warm ready (Thrown TypeError).
Proof.
  destruct (build_without_image Host provider VNull done loaded ready eq_refl)
    as [B _].
  exact (conj eq_refl B).
Defined.

Lemma list_create_do_not_shift_witness :
  result (verifyProviderIsReady provider ret loaded bare) =
    Returned (VError ("Provider " ++ dquote ++ "virtualbox" ++ dquote
                       ++ " is NOT installed!")) /\
  truthy (VError ("Provider " ++ dquote ++ "virtualbox" ++ dquote
                   ++ " is NOT installed!")) = true /\
  exports_list provider (AFun done) (AVal VUndefined) loaded bare =
    mkRun [Prov PIsInstalled; Prov PGetName] loaded bare (Thrown TypeError) /\
  exports_create provider (AFun done) (AVal VUndefined) loaded bare =
    mkRun [Prov PIsInstalled; Prov PGetName] loaded bare (Thrown TypeError) /\
  exports_list provider (AVal VUndefined) (AFun done) loaded bare =
    mkRun [Prov PIsInstalled; Prov PGetName] loaded bare
      (Returned [VError ("Provider " ++ dquote ++ "virtualbox" ++ dquote
                          ++ " is NOT installed!")]) /\
  exports_start provider (VString "web") (AFun done) (AVal VUndefined) loaded bare =
    mkRun [Prov PIsInstalled; Prov PGetName] loaded bare
      (Returned [VError ("Provider " ++ dquote ++ "virtualbox" ++ dquote
                          ++ " is NOT installed!")]).
Proof.
  destruct (list_create_do_not_shift Host provider done loaded bare _
              eq_refl eq_refl) as (L & C & _ & L' & _ & S).
  exact (conj eq_refl (conj eq_refl (conj L (conj C
          (conj (L' VUndefined) (S (VString "web"))))))).
Defined.

Lemma engine_init_at_most_once_witness :
  engineHasBeenInit warm = true /\
  count is_backend_init
    (trace (sequence (map (run_op provider modules)
                        [OpList (CVal VUndefined) CDone; OpBuild dockerfile_image]) warm ready)) = 0.
Proof.
  destruct (engine_init_at_most_once Host provider modules
              [OpList (CVal VUndefined) CDone; OpBuild dockerfile_image] ready) as [_ Z].
  exact (conj eq_refl (Z warm eq_refl)).
Defined.

End Examples.
